(** * Smart-Ai-Tools: the prompt controller and the client tools loader

    A shallow embedding of
    - [server/controllers/smartPromptController.js] (module [Server]):
      [createPrompt], [getPrompts], [getPromptById], [updatePrompt],
      [deletePrompt], [ratePrompt];
    - the React tools context (module [Client]): [cacheKey], [loadTools],
      [categoryStats];
    followed by the properties of the access checks, of the listing query, of
    the pagination arithmetic, of the page cache and of the category counts. *)

From Stdlib Require Import ZArith QArith Qround String Ascii List Bool Lia.
From stdpp Require Import base option list strings gmap pretty.
From stdpp Require Import sorting.

Local Open Scope Z_scope.

(** ** JavaScript values shared by both halves *)

(** A handler either completes with a value or throws; the [catch] block of
    every controller reads [error.message]. *)
Inductive Result (A : Type) : Type :=
| Ok (a : A)
| Throw (message : string).
Arguments Ok {A} a.
Arguments Throw {A} message.

(** Truthiness of a string-valued property: [undefined] and [''] are falsy. *)
Definition truthy (v : option string) : bool :=
  match v with
  | Some s => negb (String.eqb s "")
  | None => false
  end.

(** JSON values of a request body.  Numbers carry the exact rational value of
    the parsed double; arrays are arrays of strings (tags, user ids). *)
Inductive JsVal : Type :=
| JUndefined
| JNull
| JBool (b : bool)
| JNum (q : Q)
| JStr (s : string)
| JArr (l : list string).

Module Server.

(** *** Documents *)

Definition Id := string.

Record Rating := { r_userId : Id; r_rating : Q }.

(** A stored prompt, with the fields the controller and the listing query
    read.  [creator] is the reference to the owning user. *)
Record SmartPrompt := {
  _id : Id;
  title : string;
  description : string;
  category : string;
  tags : list string;
  visibility : string;
  creator : Id;
  sharedWith : list Id;
  ratings : list Rating;
  averageRating : Q
}.

(** The projection [populate('creator', 'username email')] puts in place of
    the reference. *)
Record User := { u_id : Id; username : string; email : string }.

Record Populated := { doc : SmartPrompt; creator_info : User }.

(** The collection, keyed by [_id]: [findById] is a lookup.  Ids are
    well-formed and the store answers; failures of the driver are not part of
    the model. *)
Abbreviation Store := (gmap Id SmartPrompt).

(** *** Requests and responses *)

(** [req.query.visibility] is a string or, when the parameter is repeated,
    an array of strings. *)
Inductive QueryValue : Type :=
| QStr (s : string)
| QArr (l : list string).

(** The destructured [req.query] of [getPrompts].  [q_page] and [q_limit] hold
    the numeric value of the parameter ([Number(page)], [Number(limit)]);
    [None] is an absent parameter. *)
Record ReqQuery := {
  q_page : option Z;
  q_limit : option Z;
  q_category : option string;
  q_search : option string;
  q_visibility : option QueryValue;
  q_userId : option string;
  q_favorites : option string;
  q_sharedWith : option string;
  q_accessibleBy : option string;
  q_sort : option string
}.

Record Listing := {
  prompts : list Populated;
  totalPages : Z;
  totalCount : Z;
  currentPage : Z
}.

Inductive Body : Type :=
| BMessage (message : string)
| BPrompt (p : SmartPrompt)
| BPopulated (p : Populated)
| BListing (l : Listing).

Record Response := { status : Z; body : Body }.

(** *** The query object handed to [SmartPrompt.find] *)

(** The right-hand side of one field of a filter: a value, [{ $in: [...] }]
    or [{ $regex: pat, $options: opts }]. *)
Inductive Cond : Type :=
| CEq (v : string)
| CIn (vs : list string)
| CRegex (pat opts : string).

(** A property of the query object: a field condition, or the array of
    single-field filters stored under [$or]. *)
Inductive Entry : Type :=
| EField (c : Cond)
| EOr (alts : list (string * Cond)).

(** [query] is a plain object: assigning a property that is already there
    replaces it. *)
Abbreviation MongoQuery := (gmap string Entry).

(** The values a path denotes in a document; an array field denotes each of
    its elements, so that [{ tags: x }] matches when some tag does. *)
Definition field_values (path : string) (p : SmartPrompt) : list string :=
  if String.eqb path "title" then [title p]
  else if String.eqb path "description" then [description p]
  else if String.eqb path "category" then [category p]
  else if String.eqb path "tags" then tags p
  else if String.eqb path "visibility" then [visibility p]
  else if String.eqb path "creator" then [creator p]
  else if String.eqb path "sharedWith" then sharedWith p
  else if String.eqb path "ratings.userId" then r_userId <$> ratings p
  else [].

Section Matching.

(** [regex pat opts s]: the store's test of [s] against the pattern [pat]
    under the options [opts]. *)
Variable regex : string -> string -> string -> bool.

Definition cond_holds (c : Cond) (v : string) : bool :=
  match c with
  | CEq w => String.eqb v w
  | CIn ws => existsb (String.eqb v) ws
  | CRegex pat opts => regex pat opts v
  end.

Definition field_matches (path : string) (c : Cond) (p : SmartPrompt) : bool :=
  existsb (cond_holds c) (field_values path p).

Definition entry_matches (key : string) (e : Entry) (p : SmartPrompt) : bool :=
  match e with
  | EField c => field_matches key c p
  | EOr alts => existsb (fun a => field_matches a.1 a.2 p) alts
  end.

(** A document matches when every property of the query does. *)
Definition matches (query : MongoQuery) (p : SmartPrompt) : bool :=
  bool_decide (map_Forall (fun k e => entry_matches k e p = true) query).

End Matching.

(** *** [getPrompts]: building the query *)

Definition set_if (c : bool) (key : string) (e : Entry) (query : MongoQuery)
  : MongoQuery :=
  if c then <[key := e]> query else query.

Definition accessibleBy_alts (u : string) : list (string * Cond) :=
  [("visibility", CEq "public"); ("creator", CEq u); ("sharedWith", CEq u)].

Definition search_alts (s : string) : list (string * Cond) :=
  [("title", CRegex s "i"); ("description", CRegex s "i"); ("tags", CRegex s "i")].

(** The statements of [getPrompts] between [let query = {}] and the call of
    [find], in source order. *)
Definition build_query (q : ReqQuery) : MongoQuery :=
  let query : MongoQuery := ∅ in
  let query :=
    match q_visibility q with
    | Some (QArr vs) => <["visibility" := EField (CIn vs)]> query
    | Some (QStr v) => set_if (truthy (Some v)) "visibility" (EField (CEq v)) query
    | None => query
    end in
  let query :=
    set_if (truthy (q_userId q)) "creator"
      (EField (CEq (default "" (q_userId q)))) query in
  let query :=
    set_if (truthy (q_favorites q)) "ratings.userId"
      (EField (CEq (default "" (q_favorites q)))) query in
  let query :=
    set_if (truthy (q_sharedWith q)) "sharedWith"
      (EField (CEq (default "" (q_sharedWith q)))) query in
  let query :=
    set_if (truthy (q_accessibleBy q)) "$or"
      (EOr (accessibleBy_alts (default "" (q_accessibleBy q)))) query in
  let query :=
    set_if (truthy (q_category q)) "category"
      (EField (CEq (default "" (q_category q)))) query in
  let query :=
    set_if (truthy (q_search q)) "$or"
      (EOr (search_alts (default "" (q_search q)))) query in
  query.

(** [Math.ceil(totalCount / limit)]. *)
Definition Math_ceil_div (totalCount limit : Z) : Z :=
  Qceiling (inject_Z totalCount / inject_Z limit).

Definition page_of (q : ReqQuery) : Z := default 1 (q_page q).
Definition limit_of (q : ReqQuery) : Z := default 12 (q_limit q).
Definition sort_of (q : ReqQuery) : string := default "-createdAt" (q_sort q).

(** A value [Array.prototype.includes] compares in [getPromptById]: an
    element of the [lean()] array [sharedWith], which is the ObjectId object
    of a user reference (written by its hex string), or the argument
    [req.userId], a string or [undefined]. *)
Inductive JsRef : Type :=
| RObjectId (hex : Id)
| RString (s : string)
| RUndefined.

(** SameValueZero of an array element and the argument of [includes]:
    strings by their characters; an object is the same value as itself only,
    and the argument is never one of the array's own objects. *)
Definition same_value_zero (element argument : JsRef) : bool :=
  match element, argument with
  | RString a, RString b => String.eqb a b
  | RUndefined, RUndefined => true
  | _, _ => false
  end.

(** A JavaScript number: the exact value of a finite double, or one of the
    three values that are not finite. *)
Inductive JsNumber : Type :=
| NaN
| PosInfinity
| NegInfinity
| Finite (q : Q).

(** [Array.prototype.join] with a comma, which is what an array of strings
    turns into when it is compared with a number. *)
Fixpoint join_comma (l : list string) : string :=
  match l with
  | [] => ""
  | [x] => x
  | x :: l' => x +:+ "," +:+ join_comma l'
  end.

Section Controller.

Variable regex : string -> string -> string -> bool.

(** [.sort(sort)] of the store, by a key of the schema. *)
Variable sortDocs : string -> list SmartPrompt -> list SmartPrompt.

(** The users collection read by [populate]: the [username] and [email] of
    the user a reference points to.  Every [creator] reference is taken to
    resolve. *)
Variable users : Id -> string * string.

Definition populate (p : SmartPrompt) : Populated :=
  {| doc := p;
     creator_info := {| u_id := creator p;
                        username := (users (creator p)).1;
                        email := (users (creator p)).2 |} |}.

Definition find (st : Store) (query : MongoQuery) : list SmartPrompt :=
  List.filter (matches regex query) (snd <$> map_to_list st).

Definition countDocuments (st : Store) (query : MongoQuery) : Z :=
  Z.of_nat (length (find st query)).

(** The object passed to [res.json].  The page is cut out as the store does
    for a page number of at least 1 and a positive [limit]; [limit(0)], which
    the store reads as no limit, and a negative [skip], which it refuses, are
    not modelled.  The count and the number of pages do not depend on the
    cut. *)
Definition getPrompts_listing (st : Store) (q : ReqQuery) : Listing :=
  let query := build_query q in
  let page := page_of q in
  let limit := limit_of q in
  let found :=
    take (Z.to_nat limit)
      (drop (Z.to_nat ((page - 1) * limit)) (sortDocs (sort_of q) (find st query))) in
  let totalCount := countDocuments st query in
  let totalPages := Math_ceil_div totalCount limit in
  {| prompts := populate <$> found;
     totalPages := totalPages;
     totalCount := totalCount;
     currentPage := page |}.

Definition getPrompts (st : Store) (q : ReqQuery) : Response :=
  {| status := 200; body := BListing (getPrompts_listing st q) |}.

(** *** [getPromptById] *)

(** [a !== req.userId] for a string [a]: an absent [req.userId] differs
    from every string. *)
Definition differs (a : Id) (userId : option Id) : bool :=
  match userId with
  | Some u => negb (String.eqb a u)
  | None => true
  end.

(** [req.userId] as the argument of [includes]. *)
Definition userId_ref (userId : option Id) : JsRef :=
  match userId with
  | Some u => RString u
  | None => RUndefined
  end.

(** [arr.includes(req.userId)] on the [lean()] array [sharedWith].  The
    references of the document, [creator] and [sharedWith], are ObjectIds:
    the controller turns [creator] into a string before it compares, and
    hands the elements of [sharedWith] to [includes] as they are. *)
Definition includes (arr : list Id) (userId : option Id) : bool :=
  existsb (fun e => same_value_zero (RObjectId e) (userId_ref userId)) arr.

Definition getPromptById (st : Store) (id : Id) (userId : option Id) : Response :=
  match st !! id with
  | None => {| status := 404; body := BMessage "Prompt not found" |}
  | Some found =>
      let prompt := populate found in
      if String.eqb (visibility (doc prompt)) "private"
         && differs (u_id (creator_info prompt)) userId
         && negb (includes (sharedWith (doc prompt)) userId)
      then {| status := 403; body := BMessage "Access denied" |}
      else {| status := 200; body := BPopulated prompt |}
  end.

(** *** [updatePrompt] *)

(** What [findByIdAndUpdate(id, { ...req.body }, { new: true,
    runValidators: true })] makes of the stored document: the updated
    document, or the validation or cast error it throws.  The schema is not
    part of the controller. *)
Variable applyUpdate : SmartPrompt -> gmap string JsVal -> Result SmartPrompt.

Definition updatePrompt (st : Store) (id : Id) (userId : option Id)
    (reqBody : gmap string JsVal) : Response * Store :=
  match st !! id with
  | None => ({| status := 404; body := BMessage "Prompt not found" |}, st)
  | Some prompt =>
      if differs (creator prompt) userId
      then ({| status := 403;
               body := BMessage "Not authorized to update this prompt" |}, st)
      else
        match applyUpdate prompt reqBody with
        | Ok updatedPrompt =>
            ({| status := 200; body := BPopulated (populate updatedPrompt) |},
             <[id := updatedPrompt]> st)
        | Throw message => ({| status := 400; body := BMessage message |}, st)
        end
  end.

(** *** [deletePrompt] *)

Definition deletePrompt (st : Store) (id : Id) (userId : option Id)
    : Response * Store :=
  match st !! id with
  | None => ({| status := 404; body := BMessage "Prompt not found" |}, st)
  | Some prompt =>
      if differs (creator prompt) userId
      then ({| status := 403;
               body := BMessage "Not authorized to delete this prompt" |}, st)
      else ({| status := 200; body := BMessage "Prompt deleted successfully" |},
            delete id st)
  end.

(** *** [ratePrompt] *)

(** StringToNumber of ECMAScript: the number a string stands for when it is
    compared with a number. *)
Variable StringToNumber : string -> JsNumber.

(** ToNumber of the [rating] member of the body ([JUndefined] when the
    member is absent), as [<] and [>] apply it when the other side is a
    number. *)
Definition ToNumber (v : JsVal) : JsNumber :=
  match v with
  | JUndefined => NaN
  | JNull => Finite 0
  | JBool b => Finite (if b then 1 else 0)
  | JNum q => Finite q
  | JStr s => StringToNumber s
  | JArr l => StringToNumber (join_comma l)
  end.

(** [rating < n] and [rating > n]; a comparison with [NaN] is false. *)
Definition js_lt (rating : JsVal) (n : Q) : bool :=
  match ToNumber rating with
  | Finite r => negb (Qle_bool n r)
  | NegInfinity => true
  | PosInfinity | NaN => false
  end.

Definition js_gt (rating : JsVal) (n : Q) : bool :=
  match ToNumber rating with
  | Finite r => negb (Qle_bool r n)
  | PosInfinity => true
  | NegInfinity | NaN => false
  end.

(** [prompt.addRating(userId, rating)], a method of the schema: the saved
    document, or the error it throws. *)
Variable addRating : SmartPrompt -> option Id -> JsVal -> Result SmartPrompt.

Definition ratePrompt (st : Store) (id : Id) (userId : option Id)
    (rating : JsVal) : Response * Store :=
  match st !! id with
  | None => ({| status := 404; body := BMessage "Prompt not found" |}, st)
  | Some prompt =>
      if js_lt rating 1 || js_gt rating 5
      then ({| status := 400;
               body := BMessage "Rating must be between 1 and 5" |}, st)
      else
        match addRating prompt userId rating with
        | Ok rated => ({| status := 200; body := BPrompt rated |}, <[id := rated]> st)
        | Throw message => ({| status := 400; body := BMessage message |}, st)
        end
  end.

(** *** [createPrompt] *)

(** [req.userId] as a property value. *)
Definition userId_value (userId : option Id) : JsVal :=
  match userId with
  | Some u => JStr u
  | None => JUndefined
  end.

(** [{ ...req.body, creator: req.userId }]. *)
Definition promptData (reqBody : gmap string JsVal) (userId : option Id)
    : gmap string JsVal :=
  <["creator" := userId_value userId]> reqBody.

(** [new SmartPrompt(promptData)] followed by [save()]: the document the
    schema builds (with its fresh [_id]), or the error thrown. *)
Variable newSmartPrompt : Store -> gmap string JsVal -> Result SmartPrompt.

Definition createPrompt (st : Store) (reqBody : gmap string JsVal)
    (userId : option Id) : Response * Store :=
  match newSmartPrompt st (promptData reqBody userId) with
  | Ok prompt => ({| status := 201; body := BPrompt prompt |}, <[_id prompt := prompt]> st)
  | Throw message => ({| status := 400; body := BMessage message |}, st)
  end.

End Controller.

(** Modelled from the spec: the overwrite-or-append step of
    [SmartPrompt.addRating] ([models/SmartPrompt.js] is not among the
    sources).  Section 4.6: a rater who already rated has that single entry
    overwritten in place, another rater's entry is appended. *)
Fixpoint upsert_rating (u : Id) (r : Q) (l : list Rating) : list Rating :=
  match l with
  | [] => [{| r_userId := u; r_rating := r |}]
  | x :: l' =>
      if String.eqb (r_userId x) u
      then {| r_userId := u; r_rating := r |} :: l'
      else x :: upsert_rating u r l'
  end.

(** Modelled from the spec: the average kept by [SmartPrompt.addRating],
    recomputed over the full list as sum over count (section 4.6). *)
Definition average (l : list Rating) : Q :=
  Qred (fold_right (fun x acc => Qplus (r_rating x) acc) 0%Q l
        / inject_Z (Z.of_nat (length l))).

(** Modelled from the spec: the test [SmartPrompt.addRating] makes of the
    value, section 4.6: the rating must be an integer in [1,5]. *)
Definition whole_1_to_5 (r : Q) : bool :=
  Qeq_bool r (inject_Z (Qfloor r)) && Qle_bool 1 r && Qle_bool r 5.

(** Modelled from the spec: the document [SmartPrompt.addRating] saves for
    the rater [u] and the rating [r], section 4.6: the rater's entry
    overwritten or appended, the average recomputed. *)
Definition with_rating (p : SmartPrompt) (u : Id) (r : Q) : SmartPrompt :=
  let rs := upsert_rating u r (ratings p) in
  {| _id := _id p; title := title p; description := description p;
     category := category p; tags := tags p; visibility := visibility p;
     creator := creator p; sharedWith := sharedWith p;
     ratings := rs; averageRating := average rs |}.

(** Modelled from the spec: [SmartPrompt.addRating], a method of
    [models/SmartPrompt.js], which is not among the sources.  Section 4.6:
    the rating must be an integer in [1,5], anything else is a validation
    error and changes nothing; the requester must be identified; the rater's
    entry is overwritten or appended and the average recomputed. *)
Definition addRating_spec (p : SmartPrompt) (userId : option Id) (rating : JsVal)
    : Result SmartPrompt :=
  match userId, rating with
  | Some u, JNum r =>
      if whole_1_to_5 r then Ok (with_rating p u r)
      else Throw "Validation failed: rating must be an integer between 1 and 5"
  | _, _ => Throw "Validation failed: rating and user are required"
  end.

(** *** Predicates used to state the properties *)

(** The accessibleBy disjunction of the listing: public, or created by [u],
    or shared with [u]. *)
Definition accessible (u : Id) (p : SmartPrompt) : bool :=
  String.eqb (visibility p) "public"
  || String.eqb (creator p) u
  || existsb (String.eqb u) (sharedWith p).

(** The search disjunction of the listing: the pattern is found, case
    ignored, in the title, the description or one of the tags. *)
Definition search_hit (regex : string -> string -> string -> bool)
    (s : string) (p : SmartPrompt) : bool :=
  regex s "i" (title p) || regex s "i" (description p)
  || existsb (regex s "i") (tags p).

(** A requester a private record is closed to: neither its creator nor one
    of its [sharedWith]. *)
Definition refused (p : SmartPrompt) (userId : option Id) : Prop :=
  visibility p = "private"
  /\ userId <> Some (creator p)
  /\ ~ (exists u, userId = Some u /\ In u (sharedWith p)).

(** A rating that is an integer between 1 and 5: a JSON number whose value
    is one of 1, 2, 3, 4, 5. *)
Definition integer_1_to_5 (rating : JsVal) : Prop :=
  exists (r : Q) (n : Z), rating = JNum r /\ (r == inject_Z n)%Q /\ 1 <= n <= 5.

End Server.

Module Client.

(** *** Tools and the provider's state *)

(** [tool.categories] is absent, an array, or a single string. *)
Inductive Categories : Type :=
| CatsAbsent
| CatsArray (l : list string)
| CatsString (s : string).

Record Tool := {
  name : string;
  t_description : string;
  t_category : option string;
  t_categories : Categories;
  t_pricing : option string
}.

Record Filters := {
  f_search : string;
  f_category : string;
  f_pricing : string;
  f_sort : string
}.

(** A value of [toolsCache]. *)
Record CacheEntry := { c_tools : list Tool; c_totalPages : Z }.

Record State := {
  tools : list Tool;
  loading : bool;
  error : option string;
  filters : Filters;
  toolsCache : gmap string CacheEntry;
  currentPage : Z;
  totalPages : Z
}.

Definition initial_filters : Filters :=
  {| f_search := ""; f_category := "all"; f_pricing := "all"; f_sort := "rating-desc" |}.

Definition initial_state : State :=
  {| tools := []; loading := true; error := None; filters := initial_filters;
     toolsCache := ∅; currentPage := 1; totalPages := 1 |}.

(** *** [cacheKey = JSON.stringify({ ...filters, page: currentPage })] *)

Definition dquote : string := String "034"%char EmptyString.

Definition hex_digit (n : N) : ascii :=
  if (n <? 10)%N then ascii_of_N (48 + n) else ascii_of_N (87 + n).

(** One character of a JSON string literal. *)
Definition json_escape (c : ascii) : string :=
  let n := N_of_ascii c in
  if (n =? 34)%N then "\" +:+ dquote
  else if (n =? 92)%N then "\\"
  else if (n =? 8)%N then "\b"
  else if (n =? 9)%N then "\t"
  else if (n =? 10)%N then "\n"
  else if (n =? 12)%N then "\f"
  else if (n =? 13)%N then "\r"
  else if (n <? 32)%N
       then "\u00" +:+ String (hex_digit (n / 16)) (String (hex_digit (n mod 16)) EmptyString)
  else String c EmptyString.

Fixpoint json_escape_string (s : string) : string :=
  match s with
  | EmptyString => EmptyString
  | String c s' => json_escape c +:+ json_escape_string s'
  end.

Definition json_string (s : string) : string :=
  dquote +:+ json_escape_string s +:+ dquote.

Definition json_member (key value : string) : string :=
  json_string key +:+ ":" +:+ value.

Definition cacheKey (filters : Filters) (currentPage : Z) : string :=
  "{" +:+ json_member "search" (json_string (f_search filters))
  +:+ "," +:+ json_member "category" (json_string (f_category filters))
  +:+ "," +:+ json_member "pricing" (json_string (f_pricing filters))
  +:+ "," +:+ json_member "sort" (json_string (f_sort filters))
  +:+ "," +:+ json_member "page" (pretty currentPage)
  +:+ "}".

(** *** [loadTools] *)

(** The [params] of the request to [/api/tools]. *)
Record Params := {
  p_category : option string;
  p_search : option string;
  p_sort : string;
  p_page : Z;
  p_limit : Z
}.

(** [response.data]. *)
Record ApiData := { d_tools : list Tool; d_total : Z; d_pages : Z }.

Definition request_params (filters : Filters) (currentPage : Z) : Params :=
  {| p_category :=
       if negb (String.eqb (f_category filters) "all")
       then Some (f_category filters) else None;
     p_search :=
       if truthy (Some (f_search filters)) then Some (f_search filters) else None;
     p_sort := f_sort filters;
     p_page := currentPage;
     p_limit := 28 |}.

Definition setTools (v : list Tool) (st : State) : State :=
  {| tools := v; loading := loading st; error := error st; filters := filters st;
     toolsCache := toolsCache st; currentPage := currentPage st;
     totalPages := totalPages st |}.

Definition setLoading (v : bool) (st : State) : State :=
  {| tools := tools st; loading := v; error := error st; filters := filters st;
     toolsCache := toolsCache st; currentPage := currentPage st;
     totalPages := totalPages st |}.

Definition setError (v : option string) (st : State) : State :=
  {| tools := tools st; loading := loading st; error := v; filters := filters st;
     toolsCache := toolsCache st; currentPage := currentPage st;
     totalPages := totalPages st |}.

Definition setToolsCache (f : gmap string CacheEntry -> gmap string CacheEntry)
    (st : State) : State :=
  {| tools := tools st; loading := loading st; error := error st;
     filters := filters st; toolsCache := f (toolsCache st);
     currentPage := currentPage st; totalPages := totalPages st |}.

Definition setTotalPages (v : Z) (st : State) : State :=
  {| tools := tools st; loading := loading st; error := error st;
     filters := filters st; toolsCache := toolsCache st;
     currentPage := currentPage st; totalPages := v |}.

Section Loader.

(** [api.get('/api/tools', { params })]: the response data, or a rejection. *)
Variable api_get : Params -> Result ApiData.

(** One run of [loadTools] from the state [st] it closes over: the state
    once the run has settled, and the requests it issued. *)
Definition loadTools (st : State) : State * list Params :=
  let key := cacheKey (filters st) (currentPage st) in
  let st := setLoading true st in
  let st := setError None st in
  match toolsCache st !! key with
  | Some cached =>
      let st := setTools (c_tools cached) st in
      let st := setTotalPages (c_totalPages cached) st in
      (setLoading false st, [])
  | None =>
      let params := request_params (filters st) (currentPage st) in
      match api_get params with
      | Ok data =>
          let st :=
            setToolsCache
              (fun prev => <[key := {| c_tools := d_tools data;
                                       c_totalPages := d_pages data |}]> prev) st in
          let st := setTools (d_tools data) st in
          let st := setTotalPages (d_pages data) st in
          (setLoading false st, [params])
      | Throw _ =>
          let st := setError (Some "Failed to load tools. Please try again.") st in
          (setLoading false st, [params])
      end
  end.

End Loader.

(** *** [categoryStats] *)

(** [addToStats]: [stats[category] = (stats[category] || 0) + 1] for a truthy
    [category].  [stats] is read as a map from names to counts: category
    names are taken not to be names of properties of [Object.prototype]. *)
Definition addToStats (stats : gmap string nat) (category : string)
    : gmap string nat :=
  if truthy (Some category)
  then <[category := (default 0 (stats !! category) + 1)%nat]> stats
  else stats.

(** The body of [tools.forEach] in [categoryStats]. *)
Definition count_tool (stats : gmap string nat) (tool : Tool) : gmap string nat :=
  let stats :=
    if truthy (t_category tool)
    then addToStats stats (default "" (t_category tool))
    else stats in
  match t_categories tool with
  | CatsArray l => foldl addToStats stats l
  | CatsString s => if truthy (Some s) then addToStats stats s else stats
  | CatsAbsent => stats
  end.

Definition categoryStats (tools : list Tool) : gmap string nat :=
  foldl count_tool ∅ tools.

(** The count the description of [categoryStats] asks for: the loaded records
    whose [category] or [categories] contain [c]. *)
Definition mentions (c : string) (tool : Tool) : bool :=
  bool_decide (t_category tool = Some c)
  || match t_categories tool with
     | CatsArray l => bool_decide (c ∈ l)
     | CatsString s => bool_decide (s = c)
     | CatsAbsent => false
     end.

Definition records_in_category (c : string) (tools : list Tool) : nat :=
  length (List.filter (mentions c) tools).

(** The number of times [count_tool] bumps the entry of [c] for one tool. *)
Definition occurrences (c : string) (tool : Tool) : nat :=
  ((if bool_decide (t_category tool = Some c) then 1 else 0)
   + match t_categories tool with
     | CatsArray l => length (List.filter (String.eqb c) l)
     | CatsString s => if bool_decide (s = c) then 1 else 0
     | CatsAbsent => 0
     end)%nat.

Definition total_occurrences (c : string) (tools : list Tool) : nat :=
  foldr (fun tool n => (occurrences c tool + n)%nat) 0%nat tools.

(** An entry of [stats] after [n] more bumps. *)
Definition bumped (o : option nat) (n : nat) : option nat :=
  match n with
  | O => o
  | S _ => Some (default 0 o + n)%nat
  end.

End Client.

(** ** Concrete instances

    A literal-pattern matcher, a three-document collection and the requests
    used to evaluate the handlers. *)
Module Demo.
Import Server.

Definition to_lower (c : ascii) : ascii :=
  let n := N_of_ascii c in
  if (65 <=? n)%N && (n <=? 90)%N then ascii_of_N (n + 32) else c.

Fixpoint lowercase (s : string) : string :=
  match s with
  | EmptyString => EmptyString
  | String c s' => String (to_lower c) (lowercase s')
  end.

Fixpoint starts_with (p s : string) : bool :=
  match p, s with
  | EmptyString, _ => true
  | String a p', String b s' => Ascii.eqb a b && starts_with p' s'
  | String _ _, EmptyString => false
  end.

Fixpoint contains (p s : string) : bool :=
  starts_with p s
  || match s with
     | EmptyString => false
     | String _ s' => contains p s'
     end.

(** A pattern without metacharacters matches the strings that contain it;
    the option [i] ignores case. *)
Definition regex_literal (pat opts s : string) : bool :=
  if String.eqb opts "i" then contains (lowercase pat) (lowercase s)
  else contains pat s.

Definition sort_none (key : string) (l : list SmartPrompt) : list SmartPrompt := l.

Fixpoint digits_value (s : string) (acc : Z) : option Z :=
  match s with
  | EmptyString => Some acc
  | String c s' =>
      let n := N_of_ascii c in
      if (48 <=? n)%N && (n <=? 57)%N
      then digits_value s' (10 * acc + Z.of_N (n - 48))
      else None
  end.

(** StringToNumber on the strings of digits and on the empty string. *)
Definition to_number (s : string) : JsNumber :=
  match digits_value s 0 with
  | Some n => Finite (inject_Z n)
  | None => NaN
  end.

Definition users (id : Id) : string * string := (id, id +:+ "@example.org").

Definition lint_rules : SmartPrompt :=
  {| _id := "p1"; title := "Lint rules"; description := "House style for reviews";
     category := "Code"; tags := ["eslint"]; visibility := "private";
     creator := "alice"; sharedWith := ["bob"];
     ratings := [{| r_userId := "bob"; r_rating := 4 |}]; averageRating := 4 |}.

Definition haiku : SmartPrompt :=
  {| _id := "p2"; title := "Haiku"; description := "Seventeen syllables";
     category := "Writing"; tags := []; visibility := "public";
     creator := "bob"; sharedWith := []; ratings := []; averageRating := 0 |}.

Definition changelog : SmartPrompt :=
  {| _id := "p3"; title := "Changelog"; description := "Release notes";
     category := "Code"; tags := ["git"]; visibility := "shared";
     creator := "alice"; sharedWith := ["bob"]; ratings := []; averageRating := 0 |}.

Definition store : gmap Id SmartPrompt :=
  <["p1" := lint_rules]> (<["p2" := haiku]> (<["p3" := changelog]> ∅)).

Definition no_filters : ReqQuery :=
  {| q_page := None; q_limit := None; q_category := None; q_search := None;
     q_visibility := None; q_userId := None; q_favorites := None;
     q_sharedWith := None; q_accessibleBy := None; q_sort := None |}.

(** [?accessibleBy=mallory&search=lint] *)
Definition lint_for_mallory : ReqQuery :=
  {| q_page := None; q_limit := None; q_category := None; q_search := Some "lint";
     q_visibility := None; q_userId := None; q_favorites := None;
     q_sharedWith := None; q_accessibleBy := Some "mallory"; q_sort := None |}.

(** [{ title: 'Regex helper', creator: 'alice' }]: a body that names another
    user as creator. *)
Definition forged_body : gmap string JsVal :=
  <["title" := JStr "Regex helper"]> (<["creator" := JStr "alice"]> ∅).

Definition str_field (data : gmap string JsVal) (key : string) : option string :=
  match data !! key with
  | Some (JStr s) => Some s
  | _ => None
  end.

(** A schema that requires a string [creator] and [title], defaults the
    rest, and numbers its documents. *)
Definition new_prompt (st : gmap Id SmartPrompt) (data : gmap string JsVal)
    : Result SmartPrompt :=
  match str_field data "creator", str_field data "title" with
  | Some c, Some t =>
      Ok {| _id := "p" +:+ pretty (Z.of_nat (size st) + 1);
            title := t;
            description := default "" (str_field data "description");
            category := default "" (str_field data "category");
            tags := [];
            visibility := default "private" (str_field data "visibility");
            creator := c; sharedWith := []; ratings := []; averageRating := 0 |}
  | _, _ => Throw "SmartPrompt validation failed"
  end.

(** An update that only knows how to retitle. *)
Definition retitle (p : SmartPrompt) (patch : gmap string JsVal)
    : Result SmartPrompt :=
  match patch !! "title" with
  | Some (JStr t) =>
      Ok {| _id := _id p; title := t; description := description p;
            category := category p; tags := tags p; visibility := visibility p;
            creator := creator p; sharedWith := sharedWith p;
            ratings := ratings p; averageRating := averageRating p |}
  | Some _ => Throw "Cast to string failed for path title"
  | None => Ok p
  end.

End Demo.

Module ClientDemo.
Import Client.

(** A tool that names its category in both fields. *)
Definition voicebox : Tool :=
  {| name := "Voicebox"; t_description := "Text to speech";
     t_category := Some "Audio"; t_categories := CatsArray ["Audio"; "Video"];
     t_pricing := Some "Free" |}.

Definition captioner : Tool :=
  {| name := "Captioner"; t_description := "Subtitles from speech";
     t_category := Some "Video"; t_categories := CatsAbsent;
     t_pricing := None |}.

Definition first_page : ApiData :=
  {| d_tools := [voicebox; captioner]; d_total := 30; d_pages := 2 |}.

(** A backend that serves the first page and fails on every other. *)
Definition api (params : Params) : Result ApiData :=
  if (p_page params =? 1)%Z then Ok first_page else Throw "Network Error".

(** The state after the first page has been loaded and the user has moved on
    to the second. *)
Definition on_page_two : State :=
  {| tools := [voicebox; captioner]; loading := false; error := None;
     filters := initial_filters;
     toolsCache :=
       <[cacheKey initial_filters 1 :=
           {| c_tools := [voicebox; captioner]; c_totalPages := 2 |}]> ∅;
     currentPage := 2; totalPages := 2 |}.

End ClientDemo.

(** ** What the listing query selects *)

Module Selection.
Import Server.

(** An optional filter: a falsy parameter filters nothing. *)
Definition when (v : option string) (test : string -> bool) : bool :=
  if truthy v then test (default "" v) else true.

Definition visibility_selected (q : ReqQuery) (p : SmartPrompt) : bool :=
  match q_visibility q with
  | Some (QArr vs) => existsb (String.eqb (visibility p)) vs
  | Some (QStr v) => when (Some v) (String.eqb (visibility p))
  | None => true
  end.

(** The one disjunction the query ends up with: the search alternatives when
    [search] is truthy, else the accessibleBy alternatives when that is. *)
Definition or_selected (regex : string -> string -> string -> bool)
    (q : ReqQuery) (p : SmartPrompt) : bool :=
  if truthy (q_search q) then search_hit regex (default "" (q_search q)) p
  else when (q_accessibleBy q) (fun u => accessible u p).

Definition selected (regex : string -> string -> string -> bool)
    (q : ReqQuery) (p : SmartPrompt) : bool :=
  visibility_selected q p
  && when (q_userId q) (String.eqb (creator p))
  && when (q_favorites q) (fun u => existsb (String.eqb u) (r_userId <$> ratings p))
  && when (q_sharedWith q) (fun u => existsb (String.eqb u) (sharedWith p))
  && when (q_category q) (String.eqb (category p))
  && or_selected regex q p.

(** The same request for another page. *)
Definition with_page (q : ReqQuery) (k : Z) : ReqQuery :=
  {| q_page := Some k; q_limit := q_limit q; q_category := q_category q;
     q_search := q_search q; q_visibility := q_visibility q;
     q_userId := q_userId q; q_favorites := q_favorites q;
     q_sharedWith := q_sharedWith q; q_accessibleBy := q_accessibleBy q;
     q_sort := q_sort q |}.

End Selection.

Module HandlerDemo.
Import Server.

(** An update that takes a string [title] and a string [creator] from the
    patch and leaves the rest. *)
Definition reassign (p : SmartPrompt) (patch : gmap string JsVal)
    : Result SmartPrompt :=
  match patch !! "title", patch !! "creator" with
  | Some (JBool _), _ | Some (JNum _), _ | Some (JArr _), _ =>
      Throw "Cast to string failed for path title"
  | t, c =>
      Ok {| _id := _id p;
            title := match t with Some (JStr s) => s | _ => title p end;
            description := description p; category := category p;
            tags := tags p; visibility := visibility p;
            creator := match c with Some (JStr s) => s | _ => creator p end;
            sharedWith := sharedWith p; ratings := ratings p;
            averageRating := averageRating p |}
  end.

(** [{ creator: 'bob' }] *)
Definition give_to_bob : gmap string JsVal := <["creator" := JStr "bob"]> ∅.

(** [{ title: 42 }] *)
Definition bad_title : gmap string JsVal := <["title" := JNum 42]> ∅.

End HandlerDemo.

(** ** Reading a cache key back *)

Module KeyReader.
Import Client.

Definition hex_value (c : ascii) : option N :=
  let n := N_of_ascii c in
  if (48 <=? n)%N && (n <=? 57)%N then Some (n - 48)%N
  else if (97 <=? n)%N && (n <=? 102)%N then Some (n - 87)%N
  else None.

(** The character a JSON string literal continues with, and what follows it;
    [None] at the closing quote or on a malformed escape. *)
Definition unescape (s : string) : option (ascii * string) :=
  match s with
  | EmptyString => None
  | String c r =>
      let n := N_of_ascii c in
      if (n =? 34)%N then None
      else if (n =? 92)%N then
        match r with
        | EmptyString => None
        | String e r' =>
            let m := N_of_ascii e in
            if (m =? 34)%N then Some (e, r')
            else if (m =? 92)%N then Some (e, r')
            else if (m =? 98)%N then Some (ascii_of_N 8, r')
            else if (m =? 116)%N then Some (ascii_of_N 9, r')
            else if (m =? 110)%N then Some (ascii_of_N 10, r')
            else if (m =? 102)%N then Some (ascii_of_N 12, r')
            else if (m =? 114)%N then Some (ascii_of_N 13, r')
            else if (m =? 117)%N then
              match r' with
              | String _ (String _ (String h (String l r''))) =>
                  match hex_value h, hex_value l with
                  | Some a, Some b => Some (ascii_of_N (16 * a + b), r'')
                  | _, _ => None
                  end
              | _ => None
              end
            else None
        end
      else Some (c, r)
  end.

End KeyReader.

(** ** The derived views of the tools context and the categories page *)

Module Views.
Import Client.

(** [Set.prototype.add] on the insertion-ordered elements of a [Set]. *)
Definition set_add (s : list string) (x : string) : list string :=
  if bool_decide (x ∈ s) then s else s ++ [x].

(** [if (category) uniqueCategories.add(category)] *)
Definition add_truthy (s : list string) (x : string) : list string :=
  if truthy (Some x) then set_add s x else s.

(** The body of [tools.forEach] in [categories]. *)
Definition collect_categories (s : list string) (tool : Tool) : list string :=
  let s :=
    if truthy (t_category tool)
    then set_add s (default "" (t_category tool))
    else s in
  match t_categories tool with
  | CatsArray l => foldl add_truthy s l
  | CatsString c => if truthy (Some c) then set_add s c else s
  | CatsAbsent => s
  end.

Definition uniqueCategories (tools : list Tool) : list string :=
  foldl collect_categories [] tools.

(** The body of [tools.forEach] in [pricingOptions]. *)
Definition collect_pricing (s : list string) (tool : Tool) : list string :=
  if truthy (t_pricing tool) then set_add s (default "" (t_pricing tool)) else s.

Definition uniquePricing (tools : list Tool) : list string :=
  foldl collect_pricing [] tools.

(** [Array.prototype.sort] with a comparator, for comparators that order
    consistently: the sort is stable, so an element stays ahead of the later
    elements it does not compare above.  [before a b] says that the
    comparator's result for [(a, b)] is not positive. *)
Fixpoint insert_before {A : Type} (before : A -> A -> bool) (x : A) (l : list A)
    : list A :=
  match l with
  | [] => [x]
  | y :: l' => if before x y then x :: y :: l' else y :: insert_before before x l'
  end.

Definition js_sort {A : Type} (before : A -> A -> bool) (l : list A) : list A :=
  foldr (insert_before before) [] l.

(** [String.prototype.includes]. *)
Fixpoint starts_with (p s : string) : bool :=
  match p, s with
  | EmptyString, _ => true
  | String a p', String b s' => Ascii.eqb a b && starts_with p' s'
  | String _ _, EmptyString => false
  end.

Fixpoint includes (s p : string) : bool :=
  starts_with p s
  || match s with
     | EmptyString => false
     | String _ s' => includes s' p
     end.

(** The names every plain object answers to through [Object.prototype]. *)
Definition Object_prototype_names : list string :=
  [ "__proto__"; "constructor"; "hasOwnProperty"; "isPrototypeOf";
    "propertyIsEnumerable"; "toLocaleString"; "toString"; "valueOf";
    "__defineGetter__"; "__defineSetter__"; "__lookupGetter__";
    "__lookupSetter__" ].

(** A tool as [getFilteredTools] reads it: the record with the two numeric
    fields the sort compares. *)
Record ListedTool := { l_tool : Tool; l_rating : Q; l_reviewCount : Q }.

Section Locale.

(** [a.localeCompare(b)], which depends on the locale of the browser. *)
Variable localeCompare : string -> string -> Z.

(** [String.prototype.toLowerCase]. *)
Variable toLowerCase : string -> string.

Definition by_locale (a b : string) : bool := localeCompare a b <=? 0.

Definition categories (tools : list Tool) : list string :=
  js_sort by_locale (List.filter (fun c => truthy (Some c)) (uniqueCategories tools)).

Definition pricingOptions (tools : list Tool) : list string :=
  js_sort by_locale (List.filter (fun c => truthy (Some c)) (uniquePricing tools)).

Definition same_ignoring_case (a b : string) : bool :=
  String.eqb (toLowerCase a) (toLowerCase b).

Definition matchesSearch (filters : Filters) (tool : Tool) : bool :=
  String.eqb (f_search filters) ""
  || includes (toLowerCase (name tool)) (toLowerCase (f_search filters))
  || includes (toLowerCase (t_description tool)) (toLowerCase (f_search filters)).

Definition matchesCategory (filters : Filters) (tool : Tool) : bool :=
  String.eqb (f_category filters) "all"
  || (truthy (t_category tool)
      && same_ignoring_case (default "" (t_category tool)) (f_category filters))
  || match t_categories tool with
     | CatsArray l => existsb (fun cat => same_ignoring_case cat (f_category filters)) l
     | CatsString s => truthy (Some s) && same_ignoring_case s (f_category filters)
     | CatsAbsent => false
     end.

Definition matchesPricing (filters : Filters) (tool : Tool) : bool :=
  String.eqb (f_pricing filters) "all"
  || (truthy (t_pricing tool)
      && same_ignoring_case (default "" (t_pricing tool)) (f_pricing filters)).

Definition passes (filters : Filters) (t : ListedTool) : bool :=
  matchesSearch filters (l_tool t) && matchesCategory filters (l_tool t)
  && matchesPricing filters (l_tool t).

(** The [switch] of the comparator: [before a b] when the number it returns
    for [(a, b)] is not positive. *)
Definition sort_before (sort : string) (a b : ListedTool) : bool :=
  if String.eqb sort "rating-desc" then Qle_bool (l_rating b - l_rating a) 0
  else if String.eqb sort "rating-asc" then Qle_bool (l_rating a - l_rating b) 0
  else if String.eqb sort "reviews-desc"
       then Qle_bool (l_reviewCount b - l_reviewCount a) 0
  else if String.eqb sort "name-asc"
       then localeCompare (name (l_tool a)) (name (l_tool b)) <=? 0
  else if String.eqb sort "name-desc"
       then localeCompare (name (l_tool b)) (name (l_tool a)) <=? 0
  else true.

Definition getFilteredTools (tools : list ListedTool) (filters : Filters)
    : list ListedTool :=
  js_sort (sort_before (f_sort filters)) (List.filter (passes filters) tools).

End Locale.

(** *** The categories page *)

(** [tool.categories && tool.categories.includes(category)]: membership for
    an array, containment for a string. *)
Definition in_categories (category : string) (tool : Tool) : bool :=
  match t_categories tool with
  | CatsArray l => bool_decide (category ∈ l)
  | CatsString s => truthy (Some s) && includes s category
  | CatsAbsent => false
  end.

Definition getCategoryCount (tools : list Tool) (category : string) : nat :=
  length (List.filter (in_categories category) tools).

End Views.

Module ViewsDemo.
Import Client Views.

(** A comparison by code units, standing for a locale. *)
Definition compare_units (a b : string) : Z :=
  if String.leb a b then (if String.leb b a then 0 else -1) else 1.

Definition ascii_lower (c : ascii) : ascii :=
  let n := N_of_ascii c in
  if (65 <=? n)%N && (n <=? 90)%N then ascii_of_N (n + 32) else c.

Fixpoint lower (s : string) : string :=
  match s with
  | EmptyString => EmptyString
  | String c s' => String (ascii_lower c) (lower s')
  end.

Definition listed : list ListedTool :=
  [ {| l_tool := ClientDemo.captioner; l_rating := 3.5; l_reviewCount := 12 |};
    {| l_tool := ClientDemo.voicebox; l_rating := 4.5; l_reviewCount := 40 |} ].

Definition cheapest_first : Filters :=
  {| f_search := ""; f_category := "all"; f_pricing := "all"; f_sort := "price-asc" |}.

End ViewsDemo.

(** ** [scripts/populateCategories.js] *)

Module Script.

(** A tool as the script reads it: [_id], [category] and [rating.average]. *)
Record ToolDoc := { tool_id : string; tool_category : string; rating_average : Q }.

(** A document handed to [Category.insertMany]. *)
Record CategoryDoc := {
  c_name : string;
  c_description : string;
  c_slug : string;
  c_icon : string;
  c_toolCount : nat;
  c_featuredTools : list string
}.

(** The table of descriptions and icons, as (name, (description, icon)). *)
Definition categoryMetadata : list (string * (string * string)) :=
  [ ("Animation & 3D Modeling",
     ("Tools for creating and manipulating 3D models, animations, and visual effects.",
      "🎨"));
    ("Art & Image Generator",
     ("AI-powered tools for generating and creating artistic images and designs.",
      "🖼️"));
    ("Audio",
     ("Tools for audio processing, enhancement, and generation.",
      "🎵"));
    ("Avatars",
     ("Create and customize AI-generated avatars and profile pictures.",
      "👤"));
    ("Chat Bot",
     ("AI chatbots and conversational agents for various purposes.",
      "💬"));
    ("Code",
     ("Tools for code generation, analysis, and development assistance.",
      "👨‍💻"));
    ("Code & Database Assistant",
     ("AI assistants for coding, database management, and development tasks.",
      "💻"));
    ("Content Generation & SEO",
     ("Tools for generating content and optimizing for search engines.",
      "📝"));
    ("Creators Toolkit",
     ("Essential tools and resources for content creators and artists.",
      "🛠️"));
    ("Customer Support",
     ("AI-powered tools for customer service and support automation.",
      "🤝"));
    ("Education & Learning",
     ("Tools for educational content creation and learning assistance.",
      "📚"));
    ("Email Assistant",
     ("AI tools for email composition, management, and automation.",
      "📧"));
    ("Fashion",
     ("AI tools for fashion design, styling, and trend analysis.",
      "👗"));
    ("Gaming",
     ("AI-powered tools and resources for game development and gaming.",
      "🎮"));
    ("Gift Ideas",
     ("AI assistants for finding and suggesting perfect gifts.",
      "🎁"));
    ("Healthcare",
     ("AI tools for healthcare, medical analysis, and wellness.",
      "⚕️"));
    ("Human Resources & Resume",
     ("Tools for HR management, recruitment, and resume creation.",
      "👥"));
    ("Legal",
     ("AI tools for legal document analysis and assistance.",
      "⚖️"));
    ("Logo Generator",
     ("Create unique and professional logos using AI.",
      "🎯"));
    ("Music & Audio Generation",
     ("Tools for generating music and audio content using AI.",
      "🎼"));
    ("Organization & Automation",
     ("Tools for workflow automation and organizational tasks.",
      "⚙️"));
    ("Photo & Image Editing",
     ("AI-powered tools for photo manipulation and image editing.",
      "📸"));
    ("Plugins & Extensions",
     ("AI-powered plugins and extensions for various platforms.",
      "🔌"));
    ("Sales & Marketing",
     ("AI tools for sales automation and marketing optimization.",
      "📈"));
    ("Search Engines",
     ("AI-powered search engines and discovery tools.",
      "🔍"));
    ("Social Networks & Dating",
     ("AI tools for social networking and relationship building.",
      "💘"));
    ("Speech",
     ("Tools for speech recognition and processing.",
      "🗣️"));
    ("Text",
     ("AI tools for text analysis and manipulation.",
      "📄"));
    ("Text To Speech",
     ("Convert text to natural-sounding speech using AI.",
      "🔊"));
    ("Translation & Transcript",
     ("AI-powered translation and transcription tools.",
      "🌐"));
    ("Video",
     ("Tools for video creation, editing, and enhancement.",
      "🎥"));
    ("Writing Assistant",
     ("AI-powered writing aids and content generation tools.",
      "✍️"));
    ("Other",
     ("Other innovative AI tools and applications.",
      "🔧")) ].

Section Populate.

(** [slugify(name, { lower: true })], of the slugify package. *)
Variable slugify : string -> string.

(** [String.prototype.toLowerCase]. *)
Variable toLowerCase : string -> string.

(** [.sort({ 'rating.average': -1 })] of the store. *)
Variable sortByRating : list ToolDoc -> list ToolDoc.

(** [categoryMetadata[categoryName] || { description: ..., icon: ... }] *)
Definition metadata_of (categoryName : string) : string * string :=
  match (list_to_map categoryMetadata : gmap string (string * string)) !! categoryName with
  | Some metadata => metadata
  | None =>
      ("Collection of AI tools for " +:+ toLowerCase categoryName +:+ ".", "🔧")
  end.

(** [[...new Set(tools.map(tool => tool.category))]] *)
Definition uniqueCategories (tools : list ToolDoc) : list string :=
  foldl Views.set_add [] (tool_category <$> tools).

(** [{ category: categoryName }] on the tools collection. *)
Definition in_category (categoryName : string) (tools : list ToolDoc) : list ToolDoc :=
  List.filter (fun tool => String.eqb (tool_category tool) categoryName) tools.

Definition make_category (tools : list ToolDoc) (categoryName : string) : CategoryDoc :=
  let metadata := metadata_of categoryName in
  let toolCount := length (in_category categoryName tools) in
  let featuredTools := take 3 (sortByRating (in_category categoryName tools)) in
  {| c_name := categoryName;
     c_description := metadata.1;
     c_slug := slugify categoryName;
     c_icon := metadata.2;
     c_toolCount := toolCount;
     c_featuredTools := tool_id <$> featuredTools |}.

(** The categories the script stores in place of the old ones. *)
Definition populateCategories (tools : list ToolDoc) : list CategoryDoc :=
  make_category tools <$> uniqueCategories tools.

End Populate.

End Script.

Module ScriptDemo.
Import Script.

Definition hyphenate (c : ascii) : ascii :=
  if Ascii.eqb c " " then "-"%char else ViewsDemo.ascii_lower c.

Fixpoint slug (s : string) : string :=
  match s with
  | EmptyString => EmptyString
  | String c s' => String (hyphenate c) (slug s')
  end.

Definition by_rating (l : list ToolDoc) : list ToolDoc :=
  Views.js_sort (fun a b => Qle_bool (rating_average b) (rating_average a)) l.

Definition catalogue : list ToolDoc :=
  [ {| tool_id := "t1"; tool_category := "Audio"; rating_average := 4 |};
    {| tool_id := "t2"; tool_category := "Code"; rating_average := 3 |};
    {| tool_id := "t3"; tool_category := "Audio"; rating_average := 5 |};
    {| tool_id := "t4"; tool_category := "Audio"; rating_average := 2 |};
    {| tool_id := "t5"; tool_category := "Audio"; rating_average := 4.5 |};
    {| tool_id := "t6"; tool_category := "Robotics"; rating_average := 1 |} ].

End ScriptDemo.

Module ListingDemo.
Import Server.

(** [?accessibleBy=bob] *)
Definition for_bob : ReqQuery :=
  {| q_page := None; q_limit := None; q_category := None; q_search := None;
     q_visibility := None; q_userId := None; q_favorites := None;
     q_sharedWith := None; q_accessibleBy := Some "bob"; q_sort := None |}.

(** [?limit=2] *)
Definition two_per_page : ReqQuery :=
  {| q_page := None; q_limit := Some 2; q_category := None; q_search := None;
     q_visibility := None; q_userId := None; q_favorites := None;
     q_sharedWith := None; q_accessibleBy := None; q_sort := None |}.

(** [?page=5&limit=2] *)
Definition page_five : ReqQuery := Selection.with_page two_per_page 5.

End ListingDemo.

(** ** Properties of the prompt controller *)

Section ServerProperties.
Import Server.

Variable regex : string -> string -> string -> bool.
Variable sortDocs : string -> list SmartPrompt -> list SmartPrompt.
Variable users : Id -> string * string.
Variable applyUpdate : SmartPrompt -> gmap string JsVal -> Result SmartPrompt.
Variable StringToNumber : string -> JsNumber.
Variable addRating : SmartPrompt -> option Id -> JsVal -> Result SmartPrompt.
Variable newSmartPrompt : Store -> gmap string JsVal -> Result SmartPrompt.

(** *** The listing query *)

Lemma truthy_Some (v : option string) :
  truthy v = true -> exists s, v = Some s /\ s <> "".
Proof.
  destruct v as [s|]; simpl; [|discriminate].
  intros H. exists s. split; [reflexivity|].
  intros ->. discriminate H.
Qed.

(** Whatever was stored under [$or] before, a truthy [search] leaves the
    search alternatives there. *)
Lemma build_query_search_or (q : ReqQuery) :
  truthy (q_search q) = true ->
  build_query q !! "$or" = Some (EOr (search_alts (default "" (q_search q)))).
Proof.
  intros H. unfold build_query. rewrite H. unfold set_if at 1.
  apply lookup_insert_eq.
Qed.

(** So every document the query of such a request matches is a search hit:
    the search disjunction is kept. *)
Lemma build_query_matches_search (q : ReqQuery) (p : SmartPrompt) :
  truthy (q_search q) = true ->
  matches regex (build_query q) p = true ->
  search_hit regex (default "" (q_search q)) p = true.
Proof.
  intros Hs Hm. apply build_query_search_or in Hs.
  unfold matches in Hm. apply bool_decide_eq_true_1 in Hm.
  specialize (Hm _ _ Hs). unfold search_hit.
  cbn in Hm. rewrite !orb_false_r in Hm. rewrite <- orb_assoc. exact Hm.
Qed.

(** Without [search], a truthy [accessibleBy] is what [$or] holds. *)
Lemma build_query_accessibleBy_or (q : ReqQuery) :
  truthy (q_search q) = false ->
  truthy (q_accessibleBy q) = true ->
  build_query q !! "$or"
  = Some (EOr (accessibleBy_alts (default "" (q_accessibleBy q)))).
Proof.
  intros Hs Ha. unfold build_query. rewrite Hs, Ha. unfold set_if at 1 2.
  destruct (truthy (q_category q)); simpl.
  - rewrite lookup_insert_ne by discriminate. apply lookup_insert_eq.
  - apply lookup_insert_eq.
Qed.

(** *** Pagination arithmetic *)

Lemma Math_ceil_div_pos (a b : Z) :
  0 < b -> Math_ceil_div a b = - ((- a) / b).
Proof.
  intros Hb. unfold Math_ceil_div, Qceiling.
  destruct b as [|pb|pb]; try lia.
  unfold Qdiv, Qmult, Qinv, inject_Z, Qopp, Qfloor. simpl.
  rewrite Z.mul_1_r. reflexivity.
Qed.

Lemma Math_ceil_div_bounds (a b : Z) :
  0 < b ->
  (Math_ceil_div a b - 1) * b < a <= Math_ceil_div a b * b.
Proof.
  intros Hb. rewrite Math_ceil_div_pos by assumption.
  pose proof (Z.div_mod (- a) b ltac:(lia)) as Hdm.
  pose proof (Z.mod_pos_bound (- a) b Hb) as Hm.
  nia.
Qed.

Lemma Math_ceil_div_0 (b : Z) : 0 < b -> Math_ceil_div 0 b = 0.
Proof.
  intros Hb. pose proof (Math_ceil_div_bounds 0 b Hb). nia.
Qed.

Lemma Math_ceil_div_ge_1 (a b : Z) : 0 < b -> 0 < a -> 1 <= Math_ceil_div a b.
Proof.
  intros Hb Ha. pose proof (Math_ceil_div_bounds a b Hb). nia.
Qed.

(** C4, as the code has it: for a positive page size, [totalPages] is the
    ceiling of [totalCount / limit], the least number of pages of [limit]
    records that hold [totalCount] records.  It is 0 when nothing matches and
    equals [max(1, ceil(totalCount / limit))] as soon as one record matches. *)
Theorem getPrompts_totalPages_ceiling (st : Store) (q : ReqQuery) :
  0 < limit_of q ->
  0 <= totalCount (getPrompts_listing regex sortDocs users st q)
  /\ (totalPages (getPrompts_listing regex sortDocs users st q) - 1) * limit_of q
     < totalCount (getPrompts_listing regex sortDocs users st q)
     <= totalPages (getPrompts_listing regex sortDocs users st q) * limit_of q
  /\ (totalCount (getPrompts_listing regex sortDocs users st q) = 0 ->
      totalPages (getPrompts_listing regex sortDocs users st q) = 0)
  /\ (0 < totalCount (getPrompts_listing regex sortDocs users st q) ->
      totalPages (getPrompts_listing regex sortDocs users st q)
      = Z.max 1 (Math_ceil_div
                   (totalCount (getPrompts_listing regex sortDocs users st q))
                   (limit_of q))).
Proof.
  intros Hl. unfold getPrompts_listing. cbn [totalCount totalPages].
  set (n := countDocuments regex st (build_query q)).
  assert (Hn : 0 <= n) by (unfold n, countDocuments; lia).
  split; [exact Hn|]. split; [apply Math_ceil_div_bounds; exact Hl|]. split.
  - intros ->. apply Math_ceil_div_0; exact Hl.
  - intros Hpos. pose proof (Math_ceil_div_ge_1 n (limit_of q) Hl Hpos). lia.
Qed.

(** *** Single-record fetch *)

Lemma differs_false (a : Id) (userId : option Id) :
  differs a userId = false <-> userId = Some a.
Proof.
  destruct userId as [u|]; simpl.
  - rewrite negb_false_iff, String.eqb_eq. split; [intros ->|intros [= ->]]; reflexivity.
  - split; discriminate.
Qed.

Lemma differs_true (a : Id) (userId : option Id) :
  differs a userId = true <-> userId <> Some a.
Proof.
  rewrite <- differs_false. destruct (differs a userId); split; congruence.
Qed.

(** No string, and no absent [req.userId], is the same value as an ObjectId
    of the array. *)
Lemma includes_never (arr : list Id) (userId : option Id) :
  includes arr userId = false.
Proof.
  unfold includes. induction arr as [|e arr IH]; [reflexivity|].
  cbn [existsb]. rewrite IH. destruct userId; reflexivity.
Qed.

(** C2, as the code has it: an existing record is returned whenever its
    visibility is some other value than [private], so when it is public and
    also when it is, say, [shared], whoever asks, and whenever the requester
    is its creator; it is refused with 403 when its visibility is [private]
    and the requester is neither its creator nor in its [sharedWith]. *)
Theorem getPromptById_access (st : Store) (id : Id) (userId : option Id)
    (p : SmartPrompt) :
  st !! id = Some p ->
  (refused p userId ->
   getPromptById users st id userId
   = {| status := 403; body := BMessage "Access denied" |})
  /\ (visibility p <> "private" \/ userId = Some (creator p) ->
      getPromptById users st id userId
      = {| status := 200; body := BPopulated (populate users p) |}).
Proof.
  intros Hp. unfold getPromptById. rewrite Hp. cbn [doc creator_info populate u_id].
  rewrite includes_never. split.
  - intros (Hv & Ho & _).
    apply String.eqb_eq in Hv. apply differs_true in Ho.
    rewrite Hv, Ho. reflexivity.
  - intros [Hv|Ho].
    + apply String.eqb_neq in Hv. rewrite Hv. reflexivity.
    + apply differs_false in Ho. rewrite Ho, andb_false_r. reflexivity.
Qed.

(** *** Update and delete *)

(** C3: for an existing record and a requester that is not its creator,
    [updatePrompt] and [deletePrompt] answer 403 and hand back the collection
    they were given, whatever the patch holds: the ownership test reads the
    stored record and comes before any write. *)
Theorem mutation_by_non_owner_forbidden (st : Store) (id : Id)
    (userId : option Id) (patch : gmap string JsVal) (p : SmartPrompt) :
  st !! id = Some p ->
  userId <> Some (creator p) ->
  updatePrompt users applyUpdate st id userId patch
  = ({| status := 403; body := BMessage "Not authorized to update this prompt" |}, st)
  /\ deletePrompt st id userId
     = ({| status := 403; body := BMessage "Not authorized to delete this prompt" |}, st)
  /\ (updatePrompt users applyUpdate st id userId patch).2 !! id = Some p
  /\ (deletePrompt st id userId).2 !! id = Some p.
Proof.
  intros Hp Ho. apply differs_true in Ho.
  unfold updatePrompt, deletePrompt. rewrite Hp, Ho. cbn [snd].
  repeat split; assumption.
Qed.

(** *** Rating *)

(** What the guard lets through goes to [addRating], whose outcome decides
    the answer; what it turns away is answered 400 with nothing written. *)
Lemma ratePrompt_guard (st : Store) (id : Id) (userId : option Id)
    (rating : JsVal) (p : SmartPrompt) :
  st !! id = Some p ->
  ratePrompt StringToNumber addRating st id userId rating
  = if js_lt StringToNumber rating 1 || js_gt StringToNumber rating 5
    then ({| status := 400; body := BMessage "Rating must be between 1 and 5" |}, st)
    else match addRating p userId rating with
         | Ok rated => ({| status := 200; body := BPrompt rated |}, <[id := rated]> st)
         | Throw message => ({| status := 400; body := BMessage message |}, st)
         end.
Proof. intros Hp. unfold ratePrompt. rewrite Hp. reflexivity. Qed.

Lemma whole_1_to_5_integer (r : Q) :
  whole_1_to_5 r = true <-> integer_1_to_5 (JNum r).
Proof.
  unfold whole_1_to_5, integer_1_to_5.
  rewrite !andb_true_iff, Qeq_bool_iff, !Qle_bool_iff. split.
  - intros [[Hw H1] H5]. exists r, (Qfloor r). split; [reflexivity|].
    split; [exact Hw|].
    assert (H1' : (inject_Z 1 <= inject_Z (Qfloor r))%Q) by (rewrite <- Hw; exact H1).
    assert (H5' : (inject_Z (Qfloor r) <= inject_Z 5)%Q) by (rewrite <- Hw; exact H5).
    rewrite <- Zle_Qle in H1', H5'. split; assumption.
  - intros (r' & n & [= <-] & Hr & Hn).
    assert (Hf : Qfloor r = n) by (rewrite Hr; apply Qfloor_Z).
    rewrite Hf. split; [split; [exact Hr|]|]; rewrite Hr.
    + change 1%Q with (inject_Z 1). rewrite <- Zle_Qle. lia.
    + change 5%Q with (inject_Z 5). rewrite <- Zle_Qle. lia.
Qed.

Lemma guard_passes_integer (rating : JsVal) :
  integer_1_to_5 rating ->
  js_lt StringToNumber rating 1 || js_gt StringToNumber rating 5 = false.
Proof.
  intros (r & n & -> & Hr & Hn). unfold js_lt, js_gt. cbn [ToNumber].
  assert (H1 : Qle_bool 1 r = true).
  { apply Qle_bool_iff. rewrite Hr. change 1%Q with (inject_Z 1).
    rewrite <- Zle_Qle. lia. }
  assert (H5 : Qle_bool r 5 = true).
  { apply Qle_bool_iff. rewrite Hr. change 5%Q with (inject_Z 5).
    rewrite <- Zle_Qle. lia. }
  rewrite H1, H5. reflexivity.
Qed.

(** C5, with the aggregator of the description: for an existing record, a
    rating that is not an integer in [1,5], whatever kind of value it is, is
    answered 400 and the collection is handed back as it was, so the rating
    list and the average of the record are unchanged; a rating is answered
    200 only when it is an integer in [1,5], and such a rating of an
    identified requester is applied to the record. *)
Theorem ratePrompt_validates (st : Store) (id : Id) (userId : option Id)
    (rating : JsVal) (p : SmartPrompt) :
  st !! id = Some p ->
  (~ integer_1_to_5 rating ->
   status (ratePrompt StringToNumber addRating_spec st id userId rating).1 = 400
   /\ (ratePrompt StringToNumber addRating_spec st id userId rating).2 = st)
  /\ (status (ratePrompt StringToNumber addRating_spec st id userId rating).1 = 200 ->
      integer_1_to_5 rating)
  /\ (forall u r,
        userId = Some u -> rating = JNum r -> integer_1_to_5 rating ->
        ratePrompt StringToNumber addRating_spec st id userId rating
        = ({| status := 200; body := BPrompt (with_rating p u r) |},
           <[id := with_rating p u r]> st)).
Proof.
  intros Hp.
  assert (Hspec : forall rated,
             addRating_spec p userId rating = Ok rated -> integer_1_to_5 rating).
  { intros rated. unfold addRating_spec.
    destruct userId as [u|]; [|discriminate].
    destruct rating as [| | | r | |]; try discriminate.
    destruct (whole_1_to_5 r) eqn:Hw; [|discriminate].
    intros _. apply whole_1_to_5_integer. exact Hw. }
  unfold ratePrompt. rewrite Hp. split; [|split].
  - intros Hn. destruct (_ || _); [split; reflexivity|].
    destruct (addRating_spec p userId rating) as [rated|m] eqn:Ha.
    + exfalso. apply Hn. exact (Hspec rated eq_refl).
    + split; reflexivity.
  - destruct (_ || _); [discriminate|].
    destruct (addRating_spec p userId rating) as [rated|m] eqn:Ha; [|discriminate].
    intros _. exact (Hspec rated eq_refl).
  - intros u r -> -> Hi. rewrite (guard_passes_integer _ Hi).
    unfold addRating_spec. apply whole_1_to_5_integer in Hi. rewrite Hi.
    reflexivity.
Qed.

(** *** Precedence of 404 *)

(** C6: in the fetch, update, delete and rate handlers an id that does not
    resolve is answered with 404 before anything else is looked at, with the
    collection untouched; a handler answers 404 only then, so a 403 (and the
    400 of the rating guard) is only ever given for a record that exists. *)
Theorem not_found_first (st : Store) (id : Id) (userId : option Id)
    (patch : gmap string JsVal) (rating : JsVal) :
  (st !! id = None ->
   getPromptById users st id userId
   = {| status := 404; body := BMessage "Prompt not found" |}
   /\ updatePrompt users applyUpdate st id userId patch
      = ({| status := 404; body := BMessage "Prompt not found" |}, st)
   /\ deletePrompt st id userId
      = ({| status := 404; body := BMessage "Prompt not found" |}, st)
   /\ ratePrompt StringToNumber addRating st id userId rating
      = ({| status := 404; body := BMessage "Prompt not found" |}, st))
  /\ (is_Some (st !! id) ->
      status (getPromptById users st id userId) <> 404
      /\ status (updatePrompt users applyUpdate st id userId patch).1 <> 404
      /\ status (deletePrompt st id userId).1 <> 404
      /\ status (ratePrompt StringToNumber addRating st id userId rating).1 <> 404)
  /\ (status (getPromptById users st id userId) = 403
      \/ status (updatePrompt users applyUpdate st id userId patch).1 = 403
      \/ status (deletePrompt st id userId).1 = 403
      \/ status (ratePrompt StringToNumber addRating st id userId rating).1 = 403 ->
      is_Some (st !! id)).
Proof.
  unfold getPromptById, updatePrompt, deletePrompt, ratePrompt.
  destruct (st !! id) as [p|] eqn:Hp.
  - split; [discriminate|]. split; [|eauto]. intros _.
    repeat split.
    + destruct (_ && _ && _); discriminate.
    + destruct (differs _ _); [discriminate|].
      destruct (applyUpdate p patch); discriminate.
    + destruct (differs _ _); discriminate.
    + destruct (_ || _); [discriminate|].
      destruct (addRating p userId rating); discriminate.
  - split; [intros _; repeat split|]. split.
    + intros [x Hx]. discriminate Hx.
    + cbn [status fst]. intros [H|[H|[H|H]]]; discriminate H.
Qed.

(** *** Creation *)

Lemma promptData_creator (reqBody : gmap string JsVal) (userId : option Id) :
  promptData reqBody userId !! "creator" = Some (userId_value userId).
Proof. apply lookup_insert_eq. Qed.

Lemma promptData_other (reqBody : gmap string JsVal) (userId : option Id)
    (key : string) :
  key <> "creator" -> promptData reqBody userId !! key = reqBody !! key.
Proof. intros H. unfold promptData. apply lookup_insert_ne. congruence. Qed.

(** C10: the data given to the model has the requester's id under [creator]
    whatever the body holds there, and the other properties of the body as
    they came.  With a schema whose documents take their [creator] from that
    property, every record [createPrompt] stores for an authenticated
    requester has that requester as its creator. *)
Theorem createPrompt_creator_is_requester (st : Store)
    (reqBody : gmap string JsVal) (u : Id) :
  (forall st' data p,
      newSmartPrompt st' data = Ok p -> data !! "creator" = Some (JStr (creator p))) ->
  promptData reqBody (Some u) !! "creator" = Some (JStr u)
  /\ (forall r st',
        createPrompt newSmartPrompt st reqBody (Some u) = (r, st') ->
        status r = 201 ->
        exists p, body r = BPrompt p /\ st' !! _id p = Some p /\ creator p = u).
Proof.
  intros Hschema. split; [apply promptData_creator|].
  intros r st' Hc Hs. unfold createPrompt in Hc.
  destruct (newSmartPrompt st (promptData reqBody (Some u))) as [p|m] eqn:Hn.
  - injection Hc as <- <-. exists p. split; [reflexivity|].
    split; [apply lookup_insert_eq|].
    apply Hschema in Hn. rewrite promptData_creator in Hn. simpl in Hn.
    congruence.
  - injection Hc as <- <-. discriminate Hs.
Qed.

End ServerProperties.

(** ** The controller on the sample collection *)

Section ServerExamples.
Import Server.

(** C1, on the code: with [?accessibleBy=mallory&search=lint] the property
    [$or] of the query holds the search alternatives only, and the listing
    returns a private prompt of alice that is shared with bob alone: it matches
    the search, and mallory may not access it. *)
Theorem getPrompts_search_overwrites_accessibleBy :
  build_query Demo.lint_for_mallory !! "$or" = Some (EOr (search_alts "lint"))
  /\ matches Demo.regex_literal (build_query Demo.lint_for_mallory) Demo.lint_rules = true
  /\ search_hit Demo.regex_literal "lint" Demo.lint_rules = true
  /\ accessible "mallory" Demo.lint_rules = false
  /\ doc <$> prompts (getPrompts_listing Demo.regex_literal Demo.sort_none Demo.users
                        Demo.store Demo.lint_for_mallory)
     = [Demo.lint_rules].
Proof. repeat split; vm_compute; reflexivity. Qed.

(** Against C4 as stated: on an empty collection the listing reports 0 pages,
    not [max(1, ceil(0 / 12)) = 1]. *)
Lemma getPrompts_totalPages_empty :
  totalCount (getPrompts_listing Demo.regex_literal Demo.sort_none Demo.users
                ∅ Demo.no_filters) = 0
  /\ totalPages (getPrompts_listing Demo.regex_literal Demo.sort_none Demo.users
                   ∅ Demo.no_filters) = 0
  /\ totalPages (getPrompts_listing Demo.regex_literal Demo.sort_none Demo.users
                   ∅ Demo.no_filters)
     <> Z.max 1 (Math_ceil_div 0 (limit_of Demo.no_filters)).
Proof. repeat split; vm_compute; congruence. Qed.

Lemma getPrompts_totalPages_ceiling_witness :
  0 < limit_of Demo.lint_for_mallory
  /\ 0 < totalCount (getPrompts_listing Demo.regex_literal Demo.sort_none Demo.users
                       Demo.store Demo.lint_for_mallory)
  /\ totalPages (getPrompts_listing Demo.regex_literal Demo.sort_none Demo.users
                   Demo.store Demo.lint_for_mallory)
     = Z.max 1 (Math_ceil_div
                  (totalCount (getPrompts_listing Demo.regex_literal Demo.sort_none
                                 Demo.users Demo.store Demo.lint_for_mallory))
                  (limit_of Demo.lint_for_mallory)).
Proof.
  split; [reflexivity|]. split; [reflexivity|].
  apply (getPrompts_totalPages_ceiling Demo.regex_literal Demo.sort_none Demo.users
           Demo.store Demo.lint_for_mallory); reflexivity.
Defined.

(** Against C2 as stated: a record whose visibility is [shared] is returned
    to a requester that is neither its creator nor in its [sharedWith]. *)
Lemma getPromptById_shared_not_refused :
  visibility Demo.changelog <> "public"
  /\ Some "mallory" <> Some (creator Demo.changelog)
  /\ ~ In "mallory" (sharedWith Demo.changelog)
  /\ Demo.store !! "p3" = Some Demo.changelog
  /\ getPromptById Demo.users Demo.store "p3" (Some "mallory")
     = {| status := 200; body := BPopulated (populate Demo.users Demo.changelog) |}.
Proof.
  split; [discriminate|]. split; [discriminate|].
  split; [intros [H|[]]; discriminate H|].
  split; vm_compute; reflexivity.
Qed.

Lemma getPromptById_access_witness :
  Demo.store !! "p1" = Some Demo.lint_rules
  /\ refused Demo.lint_rules (Some "mallory")
  /\ getPromptById Demo.users Demo.store "p1" (Some "mallory")
     = {| status := 403; body := BMessage "Access denied" |}.
Proof.
  assert (Hr : refused Demo.lint_rules (Some "mallory")).
  { split; [reflexivity|]. split; [discriminate|].
    intros (u & [= <-] & [H|[]]). discriminate H. }
  split; [reflexivity|]. split; [exact Hr|].
  apply (getPromptById_access Demo.users Demo.store "p1" (Some "mallory")
           Demo.lint_rules); [reflexivity | exact Hr].
Defined.

Lemma mutation_by_non_owner_forbidden_witness :
  Demo.store !! "p1" = Some Demo.lint_rules
  /\ Some "bob" <> Some (creator Demo.lint_rules)
  /\ updatePrompt Demo.users Demo.retitle Demo.store "p1" (Some "bob")
       (<["creator" := JStr "bob"]> Demo.forged_body)
     = ({| status := 403; body := BMessage "Not authorized to update this prompt" |},
        Demo.store).
Proof.
  split; [reflexivity|]. split; [discriminate|].
  apply (mutation_by_non_owner_forbidden Demo.users Demo.retitle Demo.store "p1"
           (Some "bob") (<["creator" := JStr "bob"]> Demo.forged_body) Demo.lint_rules);
    [reflexivity | discriminate].
Defined.

Lemma ratePrompt_validates_witness :
  Demo.store !! "p1" = Some Demo.lint_rules
  /\ ~ integer_1_to_5 (JNum (5 # 2))
  /\ status (ratePrompt Demo.to_number addRating_spec Demo.store "p1" (Some "bob")
               (JNum (5 # 2))).1 = 400
  /\ (ratePrompt Demo.to_number addRating_spec Demo.store "p1" (Some "bob")
        (JNum (5 # 2))).2 = Demo.store.
Proof.
  assert (Hn : ~ integer_1_to_5 (JNum (5 # 2))).
  { intros (r & n & [= <-] & Hq & _). unfold Qeq in Hq. simpl in Hq. lia. }
  split; [reflexivity|]. split; [exact Hn|].
  apply (ratePrompt_validates Demo.to_number Demo.store "p1" (Some "bob")
           (JNum (5 # 2)) Demo.lint_rules); [reflexivity | exact Hn].
Defined.

Lemma not_found_first_witness :
  Demo.store !! "p9" = None
  /\ getPromptById Demo.users Demo.store "p9" (Some "alice")
     = {| status := 404; body := BMessage "Prompt not found" |}
  /\ ratePrompt Demo.to_number addRating_spec Demo.store "p9" (Some "alice") (JNum 9)
     = ({| status := 404; body := BMessage "Prompt not found" |}, Demo.store).
Proof.
  split; [reflexivity|].
  destruct (not_found_first Demo.users Demo.retitle Demo.to_number addRating_spec
              Demo.store "p9" (Some "alice") Demo.forged_body (JNum 9)) as [H _].
  destruct (H eq_refl) as (Hg & _ & _ & Hr).
  split; [exact Hg | exact Hr].
Defined.

Lemma new_prompt_reads_creator (st : gmap Id SmartPrompt)
    (data : gmap string JsVal) (p : SmartPrompt) :
  Demo.new_prompt st data = Ok p -> data !! "creator" = Some (JStr (creator p)).
Proof.
  unfold Demo.new_prompt, Demo.str_field.
  destruct (data !! "creator") as [[| | | |c|]|]; try discriminate.
  destruct (data !! "title") as [[| | | |t|]|]; try discriminate.
  intros [= <-]. reflexivity.
Qed.

Lemma createPrompt_creator_is_requester_witness :
  Demo.forged_body !! "creator" = Some (JStr "alice")
  /\ promptData Demo.forged_body (Some "mallory") !! "creator" = Some (JStr "mallory")
  /\ exists p,
       body (createPrompt Demo.new_prompt Demo.store Demo.forged_body (Some "mallory")).1
       = BPrompt p
       /\ (createPrompt Demo.new_prompt Demo.store Demo.forged_body (Some "mallory")).2
          !! _id p = Some p
       /\ creator p = "mallory".
Proof.
  split; [reflexivity|].
  destruct (createPrompt_creator_is_requester Demo.new_prompt Demo.store
              Demo.forged_body "mallory" new_prompt_reads_creator) as [Hd Hc].
  split; [exact Hd|].
  apply (Hc _ _ (surjective_pairing _)). reflexivity.
Defined.

End ServerExamples.

(** ** Properties of the client tools loader *)

Section ClientProperties.
Import Client.

Variable api_get : Params -> Result ApiData.

(** C7: when the key of the current filters and page is in the cache,
    [loadTools] shows the cached tools and page count and issues no request;
    when it is not, it issues exactly one request, for the current page, and
    on success stores the fetched tools and page count under that key, so that
    the next load of the same filters and page issues none. *)
Theorem loadTools_cache_first (st : State) :
  (forall cached,
      toolsCache st !! cacheKey (filters st) (currentPage st) = Some cached ->
      loadTools api_get st
      = ({| tools := c_tools cached; loading := false; error := None;
            filters := filters st; toolsCache := toolsCache st;
            currentPage := currentPage st; totalPages := c_totalPages cached |}, []))
  /\ (toolsCache st !! cacheKey (filters st) (currentPage st) = None ->
      (loadTools api_get st).2 = [request_params (filters st) (currentPage st)]
      /\ p_page (request_params (filters st) (currentPage st)) = currentPage st
      /\ forall data,
          api_get (request_params (filters st) (currentPage st)) = Ok data ->
          toolsCache (loadTools api_get st).1
          = <[cacheKey (filters st) (currentPage st) :=
                {| c_tools := d_tools data; c_totalPages := d_pages data |}]>
              (toolsCache st)
          /\ tools (loadTools api_get st).1 = d_tools data
          /\ totalPages (loadTools api_get st).1 = d_pages data
          /\ forall api_get' : Params -> Result ApiData,
              (loadTools api_get' (loadTools api_get st).1).2 = []
              /\ tools (loadTools api_get' (loadTools api_get st).1).1 = d_tools data
              /\ totalPages (loadTools api_get' (loadTools api_get st).1).1
                 = d_pages data).
Proof.
  split.
  - intros cached Hc. unfold loadTools. cbn. rewrite Hc. reflexivity.
  - intros Hn. unfold loadTools at 1. cbn. rewrite Hn.
    split; [destruct (api_get _); reflexivity|]. split; [reflexivity|].
    intros data Hd.
    assert (Hl : loadTools api_get st
                 = ({| tools := d_tools data; loading := false; error := None;
                       filters := filters st;
                       toolsCache :=
                         <[cacheKey (filters st) (currentPage st) :=
                             {| c_tools := d_tools data; c_totalPages := d_pages data |}]>
                           (toolsCache st);
                       currentPage := currentPage st; totalPages := d_pages data |},
                    [request_params (filters st) (currentPage st)])).
    { unfold loadTools. cbn. rewrite Hn, Hd. reflexivity. }
    rewrite Hl. cbn [fst snd tools totalPages toolsCache].
    repeat split; unfold loadTools; cbn; rewrite lookup_insert_eq; reflexivity.
Qed.

(** C8: when the request of a cache miss fails, [loadTools] sets the error
    message and leaves the displayed tools, the page count and every cache
    entry as they were. *)
Theorem loadTools_fetch_failure (st : State) (message : string) :
  toolsCache st !! cacheKey (filters st) (currentPage st) = None ->
  api_get (request_params (filters st) (currentPage st)) = Throw message ->
  loadTools api_get st
  = ({| tools := tools st; loading := false;
        error := Some "Failed to load tools. Please try again.";
        filters := filters st; toolsCache := toolsCache st;
        currentPage := currentPage st; totalPages := totalPages st |},
     [request_params (filters st) (currentPage st)]).
Proof.
  intros Hn Hf. unfold loadTools. cbn. rewrite Hn, Hf. reflexivity.
Qed.

(** *** Category counts *)

Lemma bumped_bumped (o : option nat) (a b : nat) :
  bumped (bumped o a) b = bumped o (a + b).
Proof.
  destruct a as [|a], b as [|b]; simpl; try reflexivity.
  - rewrite Nat.add_0_r. reflexivity.
  - f_equal. lia.
Qed.

Lemma addToStats_lookup (stats : gmap string nat) (x c : string) :
  c <> "" ->
  addToStats stats x !! c = bumped (stats !! c) (if bool_decide (x = c) then 1 else 0).
Proof.
  intros Hc. unfold addToStats, truthy.
  destruct (String.eqb_spec x "") as [->|Hx]; simpl.
  - rewrite bool_decide_eq_false_2 by congruence. reflexivity.
  - case_bool_decide as Hxc.
    + subst x. rewrite lookup_insert_eq. reflexivity.
    + rewrite lookup_insert_ne by exact Hxc. reflexivity.
Qed.

Lemma foldl_addToStats_lookup (l : list string) (stats : gmap string nat)
    (c : string) :
  c <> "" ->
  foldl addToStats stats l !! c
  = bumped (stats !! c) (length (List.filter (String.eqb c) l)).
Proof.
  intros Hc. revert stats. induction l as [|x l IH]; intros stats; simpl.
  - reflexivity.
  - rewrite IH, addToStats_lookup by exact Hc. rewrite bumped_bumped.
    destruct (String.eqb_spec c x) as [->|Hne].
    + rewrite bool_decide_eq_true_2 by reflexivity. reflexivity.
    + rewrite bool_decide_eq_false_2 by congruence. reflexivity.
Qed.

Lemma count_tool_lookup (stats : gmap string nat) (tool : Tool) (c : string) :
  c <> "" ->
  count_tool stats tool !! c = bumped (stats !! c) (occurrences c tool).
Proof.
  intros Hc. unfold count_tool, occurrences.
  set (stats1 := if truthy (t_category tool) then _ else _).
  assert (H1 : stats1 !! c
               = bumped (stats !! c)
                   (if bool_decide (t_category tool = Some c) then 1 else 0)).
  { unfold stats1. destruct (t_category tool) as [x|]; simpl.
    - destruct (String.eqb_spec x "") as [->|Hx]; simpl.
      + rewrite bool_decide_eq_false_2 by congruence. reflexivity.
      + rewrite addToStats_lookup by exact Hc.
        destruct (decide (x = c)) as [->|Hne].
        * rewrite !bool_decide_eq_true_2 by reflexivity. reflexivity.
        * rewrite !bool_decide_eq_false_2 by congruence. reflexivity.
    - reflexivity. }
  clearbody stats1. rewrite <- bumped_bumped, <- H1.
  destruct (t_categories tool) as [|l|s].
  - reflexivity.
  - apply foldl_addToStats_lookup; exact Hc.
  - unfold truthy. destruct (String.eqb_spec s "") as [->|Hs]; simpl.
    + rewrite bool_decide_eq_false_2 by congruence. reflexivity.
    + apply addToStats_lookup; exact Hc.
Qed.

(** What [categoryStats] holds for a category name: the number of times the
    name occurs in the [category] and [categories] fields of the loaded tools,
    and no entry when it does not occur. *)
Lemma categoryStats_counts_occurrences (tools : list Tool) (c : string) :
  c <> "" ->
  categoryStats tools !! c = bumped None (total_occurrences c tools).
Proof.
  intros Hc. unfold categoryStats.
  assert (H : forall stats,
             foldl count_tool stats tools !! c
             = bumped (stats !! c) (total_occurrences c tools)).
  { induction tools as [|t ts IH]; intros stats; simpl.
    - reflexivity.
    - rewrite IH, count_tool_lookup by exact Hc. apply bumped_bumped. }
  rewrite H, lookup_empty. reflexivity.
Qed.

Lemma mentions_occurrences (c : string) (tool : Tool) :
  mentions c tool = true <-> (1 <= occurrences c tool)%nat.
Proof.
  unfold mentions, occurrences. rewrite orb_true_iff.
  case_bool_decide as Hc; [split; [lia | auto]|].
  rewrite Nat.add_0_l. split.
  - intros [H|H]; [discriminate H|]. destruct (t_categories tool) as [|l|s].
    + discriminate H.
    + apply bool_decide_eq_true_1 in H.
      induction l as [|x l IH]; [inversion H|]. simpl.
      destruct (String.eqb_spec c x) as [->|Hne]; simpl; [lia|].
      apply IH. inversion H; subst; [contradiction|assumption].
    + rewrite H. lia.
  - intros H. right. destruct (t_categories tool) as [|l|s].
    + lia.
    + apply bool_decide_eq_true_2.
      induction l as [|x l IH]; simpl in H; [lia|].
      destruct (String.eqb_spec c x) as [->|Hne]; [left|right; auto].
    + destruct (bool_decide (s = c)); [reflexivity|lia].
Qed.

(** When no loaded tool names [c] more than once, the entry of [c] is the
    number of loaded records that contain [c]. *)
Lemma categoryStats_without_repeats (tools : list Tool) (c : string) :
  c <> "" ->
  Forall (fun tool => (occurrences c tool <= 1)%nat) tools ->
  categoryStats tools !! c = bumped None (records_in_category c tools).
Proof.
  intros Hc Hall. rewrite categoryStats_counts_occurrences by exact Hc.
  f_equal. unfold records_in_category.
  induction Hall as [|t ts Ht _ IH]; simpl; [reflexivity|].
  rewrite IH. pose proof (mentions_occurrences c t) as Hm.
  destruct (mentions c t); simpl.
  - assert (1 <= occurrences c t)%nat by (apply Hm; reflexivity). lia.
  - destruct (occurrences c t) as [|n]; [reflexivity|].
    assert (false = true) by (apply Hm; lia). discriminate.
Qed.

End ClientProperties.

(** ** The loader on sample states *)

Section ClientExamples.
Import Client.

Lemma loadTools_cache_first_witness :
  toolsCache initial_state !! cacheKey (filters initial_state) (currentPage initial_state)
  = None
  /\ ClientDemo.api (request_params (filters initial_state) (currentPage initial_state))
     = Ok ClientDemo.first_page
  /\ tools (loadTools ClientDemo.api initial_state).1 = d_tools ClientDemo.first_page
  /\ (loadTools ClientDemo.api (loadTools ClientDemo.api initial_state).1).2 = [].
Proof.
  split; [reflexivity|]. split; [reflexivity|].
  destruct (loadTools_cache_first ClientDemo.api initial_state) as [_ H].
  destruct (H eq_refl) as (_ & _ & Hd).
  destruct (Hd ClientDemo.first_page eq_refl) as (_ & Ht & _ & Hagain).
  split; [exact Ht | exact (proj1 (Hagain ClientDemo.api))].
Defined.

Lemma loadTools_fetch_failure_witness :
  toolsCache ClientDemo.on_page_two
    !! cacheKey (filters ClientDemo.on_page_two) (currentPage ClientDemo.on_page_two)
  = None
  /\ ClientDemo.api (request_params (filters ClientDemo.on_page_two)
                       (currentPage ClientDemo.on_page_two))
     = Throw "Network Error"
  /\ (loadTools ClientDemo.api ClientDemo.on_page_two).1
     = {| tools := tools ClientDemo.on_page_two; loading := false;
          error := Some "Failed to load tools. Please try again.";
          filters := filters ClientDemo.on_page_two;
          toolsCache := toolsCache ClientDemo.on_page_two;
          currentPage := currentPage ClientDemo.on_page_two;
          totalPages := totalPages ClientDemo.on_page_two |}.
Proof.
  split; [vm_compute; reflexivity|]. split; [reflexivity|].
  rewrite (loadTools_fetch_failure ClientDemo.api ClientDemo.on_page_two
             "Network Error"); [reflexivity | vm_compute; reflexivity | reflexivity].
Defined.

(** C9, on the code: a single loaded tool that names [Audio] both in
    [category] and in [categories] makes [categoryStats] report 2 for
    [Audio], while one loaded record contains that category. *)
Theorem categoryStats_counts_a_tool_twice :
  categoryStats [ClientDemo.voicebox] !! "Audio" = Some 2%nat
  /\ records_in_category "Audio" [ClientDemo.voicebox] = 1%nat
  /\ categoryStats [ClientDemo.voicebox; ClientDemo.captioner] !! "Video" = Some 2%nat
  /\ records_in_category "Video" [ClientDemo.voicebox; ClientDemo.captioner] = 2%nat.
Proof. repeat split; vm_compute; reflexivity. Qed.

End ClientExamples.

(** ** Further properties of the prompt controller *)

Set Default Proof Using "Type".

Section ListingPropertiesLemmas.
Import Server Selection.

Lemma map_Forall_set_if (P : string -> Entry -> Prop) (c : bool) (key : string)
    (e : Entry) (m : gmap string Entry) :
  map_Forall P (set_if c key e m)
  <-> (c = true -> P key e) /\ map_Forall P (if c then delete key m else m).
Proof.
  destruct c; simpl.
  - rewrite <- insert_delete_eq, map_Forall_insert by apply lookup_delete_eq.
    intuition.
  - intuition. discriminate.
Qed.

Lemma delete_set_if_ne (c : bool) (k key : string) (e : Entry)
    (m : gmap string Entry) :
  k <> key -> delete k (set_if c key e m) = set_if c key e (delete k m).
Proof. intros H. destruct c; simpl; [|reflexivity]. apply delete_insert_ne. congruence. Qed.

Lemma delete_set_if_eq (c : bool) (key : string) (e : Entry)
    (m : gmap string Entry) :
  delete key (set_if c key e m) = delete key m.
Proof. destruct c; simpl; [|reflexivity]. apply delete_insert_eq. Qed.

Lemma existsb_eqb_sym (u : string) (l : list string) :
  existsb (fun v => String.eqb v u) l = existsb (String.eqb u) l.
Proof.
  induction l as [|x l IH]; simpl; [reflexivity|].
  rewrite IH, String.eqb_sym. reflexivity.
Qed.

Lemma when_true (v : option string) (test : string -> bool) :
  when v test = true <-> (truthy v = true -> test (default "" v) = true).
Proof. unfold when. destruct (truthy v); intuition. discriminate. Qed.

Lemma map_Forall_set_if_fresh (P : string -> Entry -> Prop) (c : bool)
    (key : string) (e : Entry) (m : gmap string Entry) :
  delete key m = m ->
  map_Forall P (set_if c key e m) <-> (c = true -> P key e) /\ map_Forall P m.
Proof.
  intros Hd. rewrite map_Forall_set_if. destruct c; rewrite ?Hd; reflexivity.
Qed.

Lemma map_Forall_empty_iff (P : string -> Entry -> Prop) :
  map_Forall P (∅ : gmap string Entry) <-> True.
Proof. split; [trivial|]. intros _. apply map_Forall_empty. Qed.

Lemma fmap_concat {A B : Type} (f : A -> B) (ls : list (list A)) :
  f <$> concat ls = concat ((fun l : list A => f <$> l) <$> ls).
Proof.
  induction ls as [|l ls IH]; simpl; [reflexivity|].
  rewrite fmap_app, IH. reflexivity.
Qed.

Lemma chunks_concat {A : Type} (k : nat) :
  (0 < k)%nat ->
  forall (n : nat) (l : list A),
    (length l <= n * k)%nat ->
    concat ((fun i => take k (drop (i * k) l)) <$> seq 0 n) = l.
Proof.
  intros Hk. induction n as [|n IH]; intros l Hl.
  - destruct l; [reflexivity|simpl in Hl; lia].
  - cbn [seq fmap list_fmap concat]. rewrite <- seq_shift.
    change (map S (seq 0 n)) with (S <$> seq 0 n).
    rewrite <- list_fmap_compose. change (0 * k)%nat with 0%nat. cbn [drop].
    transitivity (take k l ++ drop k l); [|apply take_drop]. f_equal.
    rewrite <- (IH (drop k l)) by (rewrite length_drop; lia).
    f_equal. apply list_fmap_ext. intros _ i _. simpl.
    rewrite drop_drop. reflexivity.
Qed.

Lemma page_offset (limit : Z) (i : nat) :
  0 < limit ->
  Z.to_nat ((Z.of_nat (S i) - 1) * limit) = (i * Z.to_nat limit)%nat.
Proof. intros Hl. nia. Qed.

End ListingPropertiesLemmas.

Ltac push_delete :=
  repeat first
    [ rewrite delete_set_if_eq
    | rewrite delete_set_if_ne by discriminate
    | rewrite delete_insert_ne by discriminate
    | rewrite delete_empty ].

Section ListingProperties.
Import Server Selection.

Variable regex : string -> string -> string -> bool.
Variable sortDocs : string -> list SmartPrompt -> list SmartPrompt.
Variable users : Id -> string * string.

Lemma matches_selected (q : ReqQuery) (p : SmartPrompt) :
  matches regex (build_query q) p = true <-> selected regex q p = true.
Proof.
  clear sortDocs users.
  unfold matches. rewrite bool_decide_eq_true.
  unfold build_query, selected, or_selected, visibility_selected.
  set (P := fun k e => entry_matches regex k e p = true).
  destruct (truthy (q_search q)) eqn:Hs; unfold set_if at 1.
  1: rewrite <- insert_delete_eq, (map_Forall_insert P) by apply lookup_delete_eq.
  all: destruct (q_visibility q) as [[v|vs]|]; push_delete.
  all: repeat (rewrite (map_Forall_set_if_fresh P) by (push_delete; reflexivity)).
  all: rewrite ?(map_Forall_insert P) by apply lookup_empty.
  all: rewrite (map_Forall_empty_iff P).
  all: rewrite !andb_true_iff, !when_true.
  all: unfold P, entry_matches, field_matches; cbn.
  all: unfold cond_holds, search_hit, accessible; cbn beta iota.
  all: rewrite ?orb_false_r, ?existsb_eqb_sym, <- ?orb_assoc.
  all: try (intuition; fail).
Qed.

(** *** Pages *)

Hypothesis sortDocs_perm : forall key l, sortDocs key l ≡ₚ l.

Lemma find_selected (st : Store) (q : ReqQuery) (p : SmartPrompt) :
  In p (find regex st (build_query q))
  <-> (exists id, st !! id = Some p) /\ selected regex q p = true.
Proof.
  unfold find. rewrite filter_In, matches_selected, <- list_elem_of_In.
  rewrite list_elem_of_fmap. split.
  - intros [([id p'] & -> & Hin) Hs]. simpl in *.
    apply elem_of_map_to_list in Hin. eauto.
  - intros [[id Hid] Hs]. split; [|exact Hs].
    exists (id, p). split; [reflexivity|]. apply elem_of_map_to_list. exact Hid.
Qed.

(** The query [getPrompts] builds selects exactly the documents that pass
    every filter whose parameter is truthy, with a single disjunction: the
    search alternatives, or else the accessibleBy alternatives; [find] with
    that query returns exactly the stored documents that pass. *)
Theorem build_query_selects (st : Store) (q : ReqQuery) (p : SmartPrompt) :
  (matches regex (build_query q) p = true <-> selected regex q p = true)
  /\ (In p (find regex st (build_query q))
      <-> (exists id, st !! id = Some p) /\ selected regex q p = true).
Proof.
  split.
  - apply matches_selected.
  - apply find_selected.
Qed.

Lemma listing_members (st : Store) (q : ReqQuery) (pp : Populated) :
  In pp (prompts (getPrompts_listing regex sortDocs users st q)) ->
  pp = populate users (doc pp)
  /\ (exists id, st !! id = Some (doc pp))
  /\ selected regex q (doc pp) = true.
Proof using sortDocs_perm.
  unfold getPrompts_listing. cbn [prompts]. intros Hin.
  apply list_elem_of_In, list_elem_of_fmap in Hin. destruct Hin as (p & -> & Hp).
  cbn [doc populate]. split; [reflexivity|].
  apply subseteq_take, subseteq_drop in Hp.
  rewrite sortDocs_perm in Hp. apply list_elem_of_In, find_selected in Hp.
  exact Hp.
Qed.

(** For a positive page size and a page number of at least 1, every prompt on
    the page of the listing is a stored document that passes the filters of
    the request, and the page holds at most [limit] prompts. *)
Theorem getPrompts_page_sound (st : Store) (q : ReqQuery) (pp : Populated) :
  0 < limit_of q ->
  1 <= page_of q ->
  In pp (prompts (getPrompts_listing regex sortDocs users st q)) ->
  pp = populate users (doc pp)
  /\ (exists id, st !! id = Some (doc pp))
  /\ selected regex q (doc pp) = true
  /\ (length (prompts (getPrompts_listing regex sortDocs users st q))
      <= Z.to_nat (limit_of q))%nat.
Proof using sortDocs_perm.
  intros _ _ Hin. destruct (listing_members st q pp Hin) as (Hpop & Hst & Hsel).
  split; [exact Hpop|]. split; [exact Hst|]. split; [exact Hsel|].
  unfold getPrompts_listing. cbn [prompts].
  rewrite length_fmap, length_take. lia.
Qed.

(** With [accessibleBy] and no [search], the listing only returns prompts
    that are public, created by that user or shared with that user. *)
Theorem getPrompts_accessibleBy_only (st : Store) (q : ReqQuery) (pp : Populated) :
  truthy (q_search q) = false ->
  truthy (q_accessibleBy q) = true ->
  In pp (prompts (getPrompts_listing regex sortDocs users st q)) ->
  accessible (default "" (q_accessibleBy q)) (doc pp) = true.
Proof using sortDocs_perm.
  intros Hs Ha Hin. apply listing_members in Hin.
  destruct Hin as (_ & _ & Hsel).
  unfold selected, or_selected, when in Hsel. rewrite Hs, Ha in Hsel.
  apply andb_true_iff in Hsel. apply Hsel.
Qed.

(** For a positive page size, the pages 1 to [totalPages] of a request, one
    after the other, are the sorted matches: nothing is lost or repeated
    between pages. *)
Theorem getPrompts_pages_cover (st : Store) (q : ReqQuery) :
  0 < limit_of q ->
  concat ((fun i =>
             prompts (getPrompts_listing regex sortDocs users st
                        (with_page q (Z.of_nat (S i)))))
            <$> seq 0 (Z.to_nat (totalPages
                                   (getPrompts_listing regex sortDocs users st q))))
  = populate users <$> sortDocs (sort_of q) (find regex st (build_query q)).
Proof using sortDocs_perm.
  intros Hl. unfold getPrompts_listing. cbn [prompts totalPages].
  change (build_query (with_page q _)) with (build_query q).
  set (sorted := sortDocs (sort_of q) (find regex st (build_query q))).
  pose proof (Math_ceil_div_bounds (countDocuments regex st (build_query q))
                (limit_of q) Hl) as Hb.
  assert (Hlen : length sorted = length (find regex st (build_query q)))
    by (unfold sorted; rewrite sortDocs_perm; reflexivity).
  set (n := Math_ceil_div (countDocuments regex st (build_query q)) (limit_of q)) in *.
  assert (Hcover : (length sorted <= Z.to_nat n * Z.to_nat (limit_of q))%nat).
  { rewrite Hlen. unfold countDocuments in Hb.
    assert (0 <= n) by nia.
    rewrite <- Z2Nat.inj_mul by lia. apply Nat2Z.inj_le.
    rewrite Z2Nat.id by nia. lia. }
  rewrite <- (chunks_concat (Z.to_nat (limit_of q)) ltac:(lia) (Z.to_nat n) sorted
                Hcover) at 1.
  rewrite fmap_concat. f_equal.
  rewrite <- list_fmap_compose. apply list_fmap_ext. intros _ i _. simpl.
  unfold page_of, limit_of, sort_of. cbn [with_page q_page q_limit q_sort default].
  fold (limit_of q). fold (sort_of q). fold sorted.
  unfold id. rewrite page_offset by exact Hl. reflexivity.
Qed.

(** The requested page is echoed back and not clamped: past the last page
    the listing is empty, with the same counts. *)
Theorem getPrompts_past_last_page (st : Store) (q : ReqQuery) :
  0 < limit_of q ->
  totalPages (getPrompts_listing regex sortDocs users st q) < page_of q ->
  prompts (getPrompts_listing regex sortDocs users st q) = []
  /\ currentPage (getPrompts_listing regex sortDocs users st q) = page_of q.
Proof using sortDocs_perm.
  intros Hl Hp. unfold getPrompts_listing in *. cbn [prompts totalPages currentPage] in *.
  split; [|reflexivity].
  pose proof (Math_ceil_div_bounds (countDocuments regex st (build_query q))
                (limit_of q) Hl) as Hb.
  rewrite drop_ge; [rewrite take_nil; reflexivity|].
  rewrite sortDocs_perm. unfold countDocuments in *. nia.
Qed.

(** A request without filters matches every stored document, whatever its
    visibility: the query is the empty object and [totalCount] is the size of
    the collection. *)
Theorem getPrompts_unfiltered (st : Store) (q : ReqQuery) :
  q_visibility q = None ->
  truthy (q_userId q) = false ->
  truthy (q_favorites q) = false ->
  truthy (q_sharedWith q) = false ->
  truthy (q_accessibleBy q) = false ->
  truthy (q_category q) = false ->
  truthy (q_search q) = false ->
  build_query q = ∅
  /\ (forall id p, st !! id = Some p -> In p (find regex st (build_query q)))
  /\ totalCount (getPrompts_listing regex sortDocs users st q) = Z.of_nat (size st).
Proof.
  intros Hv Hu Hf Hsh Ha Hc Hs.
  assert (Hq : build_query q = ∅).
  { unfold build_query. rewrite Hv, Hu, Hf, Hsh, Ha, Hc, Hs. reflexivity. }
  assert (Hall : forall p, matches regex (build_query q) p = true).
  { intros p. rewrite Hq. apply bool_decide_eq_true_2, map_Forall_empty. }
  split; [exact Hq|]. split.
  - intros id p Hp. unfold find. apply filter_In. split; [|apply Hall].
    apply list_elem_of_In, list_elem_of_fmap. exists (id, p).
    split; [reflexivity|]. apply elem_of_map_to_list. exact Hp.
  - unfold getPrompts_listing, countDocuments, find. cbn [totalCount].
    rewrite (filter_ext _ (fun _ => true)) by exact Hall.
    rewrite filter_true, length_fmap, length_map_to_list. reflexivity.
Qed.
End ListingProperties.

Section HandlerPropertiesLemmas.
Import Server.

Lemma differs_owner (p : SmartPrompt) : differs (creator p) (Some (creator p)) = false.
Proof. simpl. rewrite String.eqb_refl. reflexivity. Qed.

End HandlerPropertiesLemmas.

Section HandlerProperties.
Import Server.

Variable users : Id -> string * string.
Variable applyUpdate : SmartPrompt -> gmap string JsVal -> Result SmartPrompt.
Variable StringToNumber : string -> JsNumber.
Variable addRating : SmartPrompt -> option Id -> JsVal -> Result SmartPrompt.
Variable newSmartPrompt : Store -> gmap string JsVal -> Result SmartPrompt.

(** The update, delete and rate handlers only ever write the document they
    are addressed to: every other document of the collection is as before,
    whoever asks and however the request ends. *)
Theorem handlers_leave_other_documents (st : Store) (id id' : Id)
    (userId : option Id) (patch : gmap string JsVal) (rating : JsVal) :
  id' <> id ->
  (updatePrompt users applyUpdate st id userId patch).2 !! id' = st !! id'
  /\ (deletePrompt st id userId).2 !! id' = st !! id'
  /\ (ratePrompt StringToNumber addRating st id userId rating).2 !! id' = st !! id'.
Proof.
  intros Hne. unfold updatePrompt, deletePrompt, ratePrompt.
  destruct (st !! id) as [p|]; [|repeat split].
  split; [|split].
  - destruct (differs _ _); [reflexivity|].
    destruct (applyUpdate p patch); [|reflexivity].
    apply lookup_insert_ne. congruence.
  - destruct (differs _ _); [reflexivity|]. apply lookup_delete_ne. congruence.
  - destruct (_ || _); [reflexivity|].
    destruct (addRating p userId rating); [|reflexivity].
    apply lookup_insert_ne. congruence.
Qed.

(** An update by the creator stores what the schema makes of the patch and
    answers 200 with it; when the schema rejects the patch the answer is 400
    with the error's message and nothing is written. *)
Theorem updatePrompt_by_owner (st : Store) (id : Id) (patch : gmap string JsVal)
    (p : SmartPrompt) :
  st !! id = Some p ->
  (forall updated,
      applyUpdate p patch = Ok updated ->
      updatePrompt users applyUpdate st id (Some (creator p)) patch
      = ({| status := 200; body := BPopulated (populate users updated) |},
         <[id := updated]> st))
  /\ (forall message,
        applyUpdate p patch = Throw message ->
        updatePrompt users applyUpdate st id (Some (creator p)) patch
        = ({| status := 400; body := BMessage message |}, st)).
Proof.
  intros Hp. unfold updatePrompt. rewrite Hp, differs_owner.
  split; intros x Hx; rewrite Hx; reflexivity.
Qed.

(** Ownership is read from the stored document at each request: once an
    update has stored another creator, the former creator is refused for
    update and delete, and the new creator passes the ownership test. *)
Theorem updatePrompt_hands_over (st : Store) (id : Id)
    (patch later : gmap string JsVal) (p updated : SmartPrompt) :
  st !! id = Some p ->
  applyUpdate p patch = Ok updated ->
  creator updated <> creator p ->
  status (updatePrompt users applyUpdate
            (updatePrompt users applyUpdate st id (Some (creator p)) patch).2
            id (Some (creator p)) later).1 = 403
  /\ status (deletePrompt
              (updatePrompt users applyUpdate st id (Some (creator p)) patch).2
              id (Some (creator p))).1 = 403
  /\ deletePrompt
       (updatePrompt users applyUpdate st id (Some (creator p)) patch).2
       id (Some (creator updated))
     = ({| status := 200; body := BMessage "Prompt deleted successfully" |},
        delete id st).
Proof.
  intros Hp Hu Hc.
  assert (Hok : updatePrompt users applyUpdate st id (Some (creator p)) patch
                = ({| status := 200; body := BPopulated (populate users updated) |},
                   <[id := updated]> st)).
  { unfold updatePrompt. rewrite Hp, differs_owner, Hu. reflexivity. }
  rewrite Hok. cbn [snd].
  unfold updatePrompt, deletePrompt. rewrite lookup_insert_eq.
  assert (Hd : differs (creator updated) (Some (creator p)) = true).
  { simpl. apply negb_true_iff, String.eqb_neq. exact Hc. }
  rewrite Hd, differs_owner. cbn [fst status].
  repeat split. f_equal. apply delete_insert_eq.
Qed.

(** A delete by the creator removes the document: afterwards a fetch of the
    id by anyone, and a second delete, answer 404. *)
Theorem deletePrompt_by_owner (st : Store) (id : Id) (p : SmartPrompt)
    (anyone : option Id) :
  st !! id = Some p ->
  deletePrompt st id (Some (creator p))
  = ({| status := 200; body := BMessage "Prompt deleted successfully" |},
     delete id st)
  /\ getPromptById users (deletePrompt st id (Some (creator p))).2 id anyone
     = {| status := 404; body := BMessage "Prompt not found" |}
  /\ deletePrompt (deletePrompt st id (Some (creator p))).2 id (Some (creator p))
     = ({| status := 404; body := BMessage "Prompt not found" |}, delete id st).
Proof.
  intros Hp.
  assert (Hd : deletePrompt st id (Some (creator p))
               = ({| status := 200; body := BMessage "Prompt deleted successfully" |},
                  delete id st)).
  { unfold deletePrompt. rewrite Hp, differs_owner. reflexivity. }
  rewrite Hd. cbn [snd]. split; [reflexivity|].
  unfold getPromptById, deletePrompt. rewrite lookup_delete_eq. split; reflexivity.
Qed.

(** [ratePrompt] makes no access check: a requester to whom [getPromptById]
    refuses a private prompt can still rate it, and is answered 200 with the
    rated document. *)
Theorem ratePrompt_needs_no_access (st : Store) (id : Id) (userId : option Id)
    (rating : JsVal) (p rated : SmartPrompt) :
  st !! id = Some p ->
  refused p userId ->
  js_lt StringToNumber rating 1 || js_gt StringToNumber rating 5 = false ->
  addRating p userId rating = Ok rated ->
  getPromptById users st id userId
  = {| status := 403; body := BMessage "Access denied" |}
  /\ ratePrompt StringToNumber addRating st id userId rating
     = ({| status := 200; body := BPrompt rated |}, <[id := rated]> st).
Proof.
  intros Hp (Hv & Ho & Hs) Hr Ha. split.
  - unfold getPromptById. rewrite Hp. cbn [doc creator_info populate u_id].
    apply String.eqb_eq in Hv. rewrite Hv.
    assert (Hd : differs (creator p) userId = true).
    { destruct userId as [u|]; [|reflexivity]. simpl.
      apply negb_true_iff, String.eqb_neq. congruence. }
    rewrite Hd, includes_never. reflexivity.
  - unfold ratePrompt. rewrite Hp, Hr, Ha. reflexivity.
Qed.


(** A created prompt can be fetched back by its creator: with a schema whose
    documents take [creator] from the data, a 201 of [createPrompt] is
    followed by a 200 of [getPromptById] for the new id with the stored
    document; a rejected creation answers 400 and stores nothing. *)
Theorem createPrompt_then_fetch (st : Store) (reqBody : gmap string JsVal) (u : Id) :
  (forall st' data p,
      newSmartPrompt st' data = Ok p -> data !! "creator" = Some (JStr (creator p))) ->
  (forall p,
      newSmartPrompt st (promptData reqBody (Some u)) = Ok p ->
      createPrompt newSmartPrompt st reqBody (Some u)
      = ({| status := 201; body := BPrompt p |}, <[_id p := p]> st)
      /\ getPromptById users (createPrompt newSmartPrompt st reqBody (Some u)).2
           (_id p) (Some u)
         = {| status := 200; body := BPopulated (populate users p) |})
  /\ (forall message,
        newSmartPrompt st (promptData reqBody (Some u)) = Throw message ->
        createPrompt newSmartPrompt st reqBody (Some u)
        = ({| status := 400; body := BMessage message |}, st)).
Proof.
  intros Hschema. split.
  - intros p Hn. unfold createPrompt. rewrite Hn. split; [reflexivity|].
    cbn [snd]. unfold getPromptById. rewrite lookup_insert_eq.
    cbn [doc creator_info populate u_id].
    apply Hschema in Hn. unfold promptData in Hn.
    rewrite lookup_insert_eq in Hn. simpl in Hn. injection Hn as Hc.
    rewrite <- Hc. simpl. rewrite String.eqb_refl, andb_false_r. reflexivity.
  - intros m Hn. unfold createPrompt. rewrite Hn. reflexivity.
Qed.

End HandlerProperties.

(** ** Further properties of the client tools loader *)

Section LoaderPropertiesLemmas.
Import Client KeyReader.

Lemma append_cons (x : ascii) (a b : string) :
  String x a +:+ b = String x (a +:+ b).
Proof. reflexivity. Qed.

Lemma append_nil (b : string) : "" +:+ b = b.
Proof. reflexivity. Qed.

Lemma append_assoc (a b c : string) : (a +:+ b) +:+ c = a +:+ (b +:+ c).
Proof.
  induction a as [|x a IH]; [reflexivity|].
  rewrite !append_cons, IH. reflexivity.
Qed.

Lemma length_append (a b : string) :
  String.length (a +:+ b) = (String.length a + String.length b)%nat.
Proof.
  induction a as [|x a IH]; [reflexivity|].
  rewrite append_cons. simpl. rewrite IH. reflexivity.
Qed.

Lemma append_inv_tail (a b t : string) : a +:+ t = b +:+ t -> a = b.
Proof.
  revert b. induction a as [|x a IH]; intros [|y b] H.
  - reflexivity.
  - apply (f_equal String.length) in H. rewrite !length_append in H. simpl in H. lia.
  - apply (f_equal String.length) in H. rewrite !length_append in H. simpl in H. lia.
  - rewrite !append_cons in H. injection H as -> H. f_equal. apply IH. exact H.
Qed.

Lemma unescape_json_escape (c : ascii) (r : string) :
  unescape (json_escape c +:+ r) = Some (c, r).
Proof.
  destruct c as [[] [] [] [] [] [] [] []]; reflexivity.
Qed.

(** A string literal is read back from the front of any text: the escaped
    characters up to the closing quote determine the string and the rest. *)
Lemma json_escape_string_inj (s s' r r' : string) :
  json_escape_string s +:+ String "034" r
  = json_escape_string s' +:+ String "034" r' ->
  s = s' /\ r = r'.
Proof.
  revert s'. induction s as [|c s IH]; intros [|c' s'] H; cbn [json_escape_string] in H.
  - rewrite !append_nil in H. injection H as H. auto.
  - rewrite append_nil, append_assoc in H. apply (f_equal unescape) in H.
    rewrite unescape_json_escape in H. discriminate H.
  - rewrite append_nil, append_assoc in H. apply (f_equal unescape) in H.
    rewrite unescape_json_escape in H. discriminate H.
  - rewrite !append_assoc in H. apply (f_equal unescape) in H.
    rewrite !unescape_json_escape in H. injection H as -> H.
    apply IH in H. destruct H as [-> ->]. auto.
Qed.

End LoaderPropertiesLemmas.

Section LoaderProperties.
Import Client KeyReader.

Variable api_get : Params -> Result ApiData.

(** Whatever the cache holds and however the request ends, a run of
    [loadTools] ends with [loading] false, leaves the filters and the page
    number alone, issues at most one request, and keeps every entry the cache
    had: an entry is only ever added, under the current key, when that key
    was absent. *)
Theorem loadTools_keeps_cache (st : State) :
  loading (loadTools api_get st).1 = false
  /\ filters (loadTools api_get st).1 = filters st
  /\ currentPage (loadTools api_get st).1 = currentPage st
  /\ (length (loadTools api_get st).2 <= 1)%nat
  /\ (forall key entry,
        toolsCache st !! key = Some entry ->
        toolsCache (loadTools api_get st).1 !! key = Some entry)
  /\ (forall key,
        key <> cacheKey (filters st) (currentPage st) ->
        toolsCache (loadTools api_get st).1 !! key = toolsCache st !! key).
Proof.
  unfold loadTools. cbn.
  destruct (toolsCache st !! cacheKey (filters st) (currentPage st)) as [e|] eqn:Hk.
  - cbn. repeat split; auto.
  - destruct (api_get _) as [d|m]; cbn; repeat split; auto.
    + intros key entry He. rewrite lookup_insert_ne; [exact He|]. congruence.
    + intros key Hne. apply lookup_insert_ne. congruence.
Qed.

(** *** Cache keys *)

Ltac read_literal H :=
  repeat (injection H as H);
  apply json_escape_string_inj in H;
  let E := fresh "E" in destruct H as [E H].

(** Two states share a cache key only when they have the same four filters
    and the same page: a cached page is never served for other filters or
    another page. *)
Theorem cacheKey_inj (f f' : Filters) (page page' : Z) :
  cacheKey f page = cacheKey f' page' -> f = f' /\ page = page'.
Proof.
  unfold cacheKey, json_member, json_string, dquote. intros H.
  cbn [json_escape_string json_escape] in H.
  repeat rewrite ?append_assoc, ?append_cons, ?append_nil in H.
  read_literal H. read_literal H. read_literal H. read_literal H.
  repeat (injection H as H). apply append_inv_tail in H.
  apply (inj pretty) in H.
  split; [|exact H].
  destruct f, f'. simpl in *. congruence.
Qed.

End LoaderProperties.

(** ** Properties of the derived views *)

Section ViewPropertiesLemmas.
Import Client Views.

Lemma truthy_Some_iff (x : string) : truthy (Some x) = true <-> x <> "".
Proof.
  simpl. rewrite negb_true_iff. destruct (String.eqb_spec x ""); split; congruence.
Qed.

Lemma set_add_elem (s : list string) (x y : string) :
  y ∈ set_add s x <-> y ∈ s \/ y = x.
Proof.
  unfold set_add. case_bool_decide as Hx.
  - split; [auto|]. intros [H| ->]; assumption.
  - rewrite elem_of_app, list_elem_of_singleton. reflexivity.
Qed.

Lemma set_add_NoDup (s : list string) (x : string) :
  NoDup s -> NoDup (set_add s x).
Proof.
  intros Hs. unfold set_add. case_bool_decide as Hx; [exact Hs|].
  apply NoDup_app. split; [exact Hs|]. split.
  - intros y Hy Hy'. apply list_elem_of_singleton in Hy'. subst y. contradiction.
  - apply NoDup_singleton.
Qed.

Lemma add_truthy_elem (s : list string) (x y : string) :
  y ∈ add_truthy s x <-> y ∈ s \/ (y <> "" /\ y = x).
Proof.
  unfold add_truthy. destruct (truthy (Some x)) eqn:Hx.
  - apply truthy_Some_iff in Hx. rewrite set_add_elem.
    split; intros [H|H]; auto; [subst y; auto | tauto].
  - split; [auto|]. intros [H|[Hy ->]]; [exact H|].
    apply truthy_Some_iff in Hy. congruence.
Qed.

Lemma foldl_add_truthy_elem (l : list string) (s : list string) (y : string) :
  y ∈ foldl add_truthy s l <-> y ∈ s \/ (y <> "" /\ y ∈ l).
Proof.
  revert s. induction l as [|x l IH]; intros s; simpl.
  - split; [auto|]. intros [H|[_ H]]; [exact H|inversion H].
  - rewrite IH, add_truthy_elem, elem_of_cons. tauto.
Qed.

Lemma foldl_add_truthy_NoDup (l : list string) (s : list string) :
  NoDup s -> NoDup (foldl add_truthy s l).
Proof.
  revert s. induction l as [|x l IH]; intros s Hs; simpl; [exact Hs|].
  apply IH. unfold add_truthy. destruct (truthy (Some x)); [|exact Hs].
  apply set_add_NoDup. exact Hs.
Qed.

Lemma collect_categories_elem (s : list string) (tool : Tool) (y : string) :
  y ∈ collect_categories s tool
  <-> y ∈ s \/ (y <> "" /\ mentions y tool = true).
Proof.
  unfold collect_categories, mentions.
  set (s1 := if truthy (t_category tool) then _ else _).
  assert (H1 : y ∈ s1 <-> y ∈ s \/ (y <> "" /\ t_category tool = Some y)).
  { unfold s1. destruct (t_category tool) as [x|]; simpl.
    - change (y ∈ add_truthy s x <-> y ∈ s \/ y <> "" /\ Some x = Some y).
      rewrite add_truthy_elem. split; intros [H|[Hy H]]; auto; right;
        split; auto; congruence.
    - split; [auto|]. intros [H|[_ H]]; [exact H|discriminate H]. }
  clearbody s1. rewrite orb_true_iff, bool_decide_eq_true.
  destruct (t_categories tool) as [|l|c].
  - rewrite H1. intuition. discriminate.
  - rewrite foldl_add_truthy_elem, H1, bool_decide_eq_true. tauto.
  - change (y ∈ add_truthy s1 c <-> y ∈ s \/ y <> "" /\ (t_category tool = Some y
                                                      \/ bool_decide (c = y) = true)).
    rewrite add_truthy_elem, H1, bool_decide_eq_true. intuition congruence.
Qed.

Lemma collect_categories_NoDup (s : list string) (tool : Tool) :
  NoDup s -> NoDup (collect_categories s tool).
Proof.
  intros Hs. unfold collect_categories.
  set (s1 := if truthy (t_category tool) then _ else _).
  assert (H1 : NoDup s1).
  { unfold s1. destruct (truthy (t_category tool)); [|exact Hs].
    apply set_add_NoDup. exact Hs. }
  clearbody s1. destruct (t_categories tool) as [|l|c].
  - exact H1.
  - apply foldl_add_truthy_NoDup. exact H1.
  - destruct (truthy (Some c)); [|exact H1]. apply set_add_NoDup. exact H1.
Qed.

(** The set [categories] collects holds each non-empty name that some loaded
    tool carries in [category] or [categories], once. *)
Lemma uniqueCategories_spec (tools : list Tool) :
  NoDup (uniqueCategories tools)
  /\ forall c, c ∈ uniqueCategories tools
               <-> c <> "" /\ exists tool, tool ∈ tools /\ mentions c tool = true.
Proof.
  unfold uniqueCategories.
  assert (H : forall s, NoDup s ->
              NoDup (foldl collect_categories s tools)
              /\ forall c, c ∈ foldl collect_categories s tools
                           <-> c ∈ s \/ (c <> "" /\ exists tool,
                                           tool ∈ tools /\ mentions c tool = true)).
  { induction tools as [|t ts IH]; intros s Hs; simpl.
    - split; [exact Hs|]. intros c. split; [auto|].
      intros [H|(_ & tool & Ht & _)]; [exact H|inversion Ht].
    - destruct (IH (collect_categories s t) (collect_categories_NoDup s t Hs))
        as [Hn He].
      split; [exact Hn|]. intros c. rewrite He, collect_categories_elem. split.
      + intros [[H|[Hc Hm]]|(Hc & tool & Ht & Hm)]; auto.
        * right. split; [exact Hc|]. exists t. split; [left|exact Hm].
        * right. split; [exact Hc|]. exists tool. split; [right; exact Ht|exact Hm].
      + intros [H|(Hc & tool & Ht & Hm)]; auto.
        apply elem_of_cons in Ht. destruct Ht as [->|Ht]; [auto|].
        right. split; [exact Hc|]. exists tool. auto. }
  destruct (H [] (NoDup_nil_2)) as [Hn He]. split; [exact Hn|].
  intros c. rewrite He. split; [|auto]. intros [Hc|Hc]; [inversion Hc|exact Hc].
Qed.

Lemma insert_before_perm {A : Type} (before : A -> A -> bool) (x : A) (l : list A) :
  insert_before before x l ≡ₚ x :: l.
Proof.
  induction l as [|y l IH]; simpl; [reflexivity|].
  destruct (before x y); [reflexivity|].
  rewrite IH. apply Permutation_swap.
Qed.

Lemma js_sort_perm {A : Type} (before : A -> A -> bool) (l : list A) :
  js_sort before l ≡ₚ l.
Proof.
  induction l as [|x l IH]; simpl; [reflexivity|].
  rewrite insert_before_perm. f_equiv. exact IH.
Qed.

Lemma js_sort_sorted {A : Type} (before : A -> A -> bool) (R : A -> A -> Prop)
    (l : list A) :
  (forall a b, before a b = true <-> R a b) ->
  (forall a b, R a b \/ R b a) ->
  (forall a b c, R a b -> R b c -> R a c) ->
  StronglySorted R (js_sort before l).
Proof.
  intros Hb Htotal Htrans.
  assert (Hins : forall x s,
             StronglySorted R s -> StronglySorted R (insert_before before x s)).
  { intros x s Hs. induction Hs as [|y s Hs IH Hy]; simpl.
    - constructor; constructor.
    - destruct (before x y) eqn:Hxy.
      + apply Hb in Hxy. constructor; [constructor; assumption|].
        constructor; [exact Hxy|].
        eapply Forall_impl; [exact Hy|]. intros z Hz. eapply Htrans; eassumption.
      + constructor; [exact IH|].
        rewrite insert_before_perm. constructor; [|exact Hy].
        destruct (Htotal x y) as [H|H]; [|exact H].
        apply Hb in H. congruence. }
  induction l as [|x l IH]; simpl; [constructor|]. apply Hins. exact IH.
Qed.

Lemma js_sort_keep {A : Type} (l : list A) : js_sort (fun _ _ => true) l = l.
Proof.
  induction l as [|x l IH]; simpl; [reflexivity|].
  rewrite IH. destruct l; reflexivity.
Qed.

Lemma filter_truthy_id (l : list string) :
  "" ∉ l -> List.filter (fun c => truthy (Some c)) l = l.
Proof.
  intros Hl. apply forallb_filter_id, forallb_forall. intros x Hx.
  apply truthy_Some_iff. intros ->. apply Hl, list_elem_of_In. exact Hx.
Qed.

Lemma addToStats_empty_name (stats : gmap string nat) (x : string) :
  addToStats stats x !! "" = stats !! "".
Proof.
  unfold addToStats. destruct (truthy (Some x)) eqn:Hx; [|reflexivity].
  apply truthy_Some_iff in Hx. apply lookup_insert_ne. exact Hx.
Qed.

Lemma categoryStats_empty_name (tools : list Tool) : categoryStats tools !! "" = None.
Proof.
  unfold categoryStats.
  assert (H : forall stats, foldl count_tool stats tools !! "" = stats !! "").
  { induction tools as [|t ts IH]; intros stats; simpl; [reflexivity|].
    rewrite IH. unfold count_tool.
    set (s1 := if truthy (t_category t) then _ else _).
    assert (H1 : s1 !! "" = stats !! "").
    { unfold s1. destruct (truthy (t_category t)); [|reflexivity].
      apply addToStats_empty_name. }
    clearbody s1. destruct (t_categories t) as [|l|c].
    - exact H1.
    - rewrite <- H1. clear H1. revert s1.
      induction l as [|x l IHl]; intros s1; simpl; [reflexivity|].
      rewrite IHl. apply addToStats_empty_name.
    - destruct (truthy (Some c)); [|exact H1].
      rewrite addToStats_empty_name. exact H1. }
  rewrite H. apply lookup_empty.
Qed.

Lemma total_occurrences_pos (c : string) (tools : list Tool) :
  (1 <= total_occurrences c tools)%nat
  <-> exists tool, tool ∈ tools /\ mentions c tool = true.
Proof.
  induction tools as [|t ts IH]; simpl.
  - split; [lia|]. intros (tool & Ht & _). inversion Ht.
  - pose proof (mentions_occurrences c t) as Hm. split.
    + intros H. destruct (mentions c t) eqn:Hmc.
      * exists t. split; [left|exact Hmc].
      * assert (occurrences c t = 0)%nat.
        { destruct (occurrences c t); [reflexivity|].
          assert (false = true) by (apply Hm; lia). discriminate. }
        destruct IH as [IH _]. destruct IH as (tool & Ht & Hmt); [lia|].
        exists tool. split; [right; exact Ht|exact Hmt].
    + intros (tool & Ht & Hmt). apply elem_of_cons in Ht. destruct Ht as [->|Ht].
      * apply Hm in Hmt. lia.
      * assert (1 <= total_occurrences c ts)%nat by (apply IH; eauto). lia.
Qed.

Lemma uniquePricing_spec (tools : list Tool) :
  NoDup (uniquePricing tools)
  /\ forall p, p ∈ uniquePricing tools
               <-> p <> "" /\ exists tool, tool ∈ tools /\ t_pricing tool = Some p.
Proof.
  unfold uniquePricing.
  assert (H : forall s, NoDup s ->
              NoDup (foldl collect_pricing s tools)
              /\ forall p, p ∈ foldl collect_pricing s tools
                           <-> p ∈ s \/ (p <> "" /\ exists tool,
                                           tool ∈ tools /\ t_pricing tool = Some p)).
  { induction tools as [|t ts IH]; intros s Hs; simpl.
    - split; [exact Hs|]. intros p. split; [auto|].
      intros [H|(_ & tool & Ht & _)]; [exact H|inversion Ht].
    - assert (Hc : NoDup (collect_pricing s t)).
      { unfold collect_pricing. destruct (truthy (t_pricing t)); [|exact Hs].
        apply set_add_NoDup. exact Hs. }
      assert (Hm : forall p, p ∈ collect_pricing s t
                             <-> p ∈ s \/ (p <> "" /\ t_pricing t = Some p)).
      { intros p. unfold collect_pricing. destruct (t_pricing t) as [x|]; simpl.
        - change (p ∈ add_truthy s x <-> p ∈ s \/ p <> "" /\ Some x = Some p).
          rewrite add_truthy_elem. split; intros [H|[Hp H]]; auto; right;
            split; auto; congruence.
        - split; [auto|]. intros [H|[_ H]]; [exact H|discriminate H]. }
      destruct (IH _ Hc) as [Hn He]. split; [exact Hn|].
      intros p. rewrite He, Hm. split.
      + intros [[H|[Hp Ht]]|(Hp & tool & Ht & Hv)]; auto.
        * right. split; [exact Hp|]. exists t. split; [left|exact Ht].
        * right. split; [exact Hp|]. exists tool. split; [right; exact Ht|exact Hv].
      + intros [H|(Hp & tool & Ht & Hv)]; auto.
        apply elem_of_cons in Ht. destruct Ht as [->|Ht]; [auto|].
        right. split; [exact Hp|]. exists tool. auto. }
  destruct (H [] (NoDup_nil_2)) as [Hn He]. split; [exact Hn|].
  intros p. rewrite He. split; [|auto]. intros [Hp|Hp]; [inversion Hp|exact Hp].
Qed.

Lemma Qdiff_le (a b : Q) : Qle_bool (b - a) 0 = true <-> (b <= a)%Q.
Proof.
  rewrite Qle_bool_iff. destruct a as [an ad], b as [bn bd].
  unfold Qle, Qminus, Qplus, Qopp. simpl. lia.
Qed.

End ViewPropertiesLemmas.

Section ViewProperties.
Import Client Views.

Variable localeCompare : string -> string -> Z.
Variable toLowerCase : string -> string.

(** *** Sets of names *)

(** *** Sorting *)

(** *** [categories] and [pricingOptions] *)

Lemma categories_perm (tools : list Tool) :
  categories localeCompare tools ≡ₚ uniqueCategories tools.
Proof.
  destruct (uniqueCategories_spec tools) as [_ He].
  unfold categories. rewrite js_sort_perm, filter_truthy_id; [reflexivity|].
  rewrite He. tauto.
Qed.

Lemma categories_elem (tools : list Tool) (c : string) :
  c ∈ categories localeCompare tools
  <-> c <> "" /\ exists tool, tool ∈ tools /\ mentions c tool = true.
Proof. rewrite categories_perm. apply uniqueCategories_spec. Qed.

(** [categories] lists, without repeats, exactly the non-empty names some
    loaded tool carries in [category] or [categories]. *)
Theorem categories_names (tools : list Tool) :
  NoDup (categories localeCompare tools)
  /\ (forall c, c ∈ categories localeCompare tools
                <-> c <> "" /\ exists tool, tool ∈ tools /\ mentions c tool = true).
Proof.
  split; [rewrite categories_perm; apply uniqueCategories_spec|].
  apply categories_elem.
Qed.

(** For a name that is not a property of [Object.prototype], being listed
    in [categories] and having a count in [categoryStats] are the same. *)
Lemma categories_have_stats (tools : list Tool) (c : string) :
  c ∉ Object_prototype_names ->
  c ∈ categories localeCompare tools <-> is_Some (categoryStats tools !! c).
Proof.
  intros _. rewrite categories_elem. destruct (decide (c = "")) as [->|Hc].
  - rewrite categoryStats_empty_name. split; [tauto|]. intros [x Hx]. discriminate.
  - rewrite categoryStats_counts_occurrences by exact Hc.
    rewrite <- total_occurrences_pos.
    destruct (total_occurrences c tools) as [|n]; simpl.
    + split; [lia|]. intros [x Hx]. discriminate.
    + split; [eauto|]. intros _. split; [exact Hc|lia].
Qed.

(** [pricingOptions] lists, without repeats, exactly the non-empty values of
    the [pricing] field of the loaded tools. *)
Theorem pricingOptions_values (tools : list Tool) :
  NoDup (pricingOptions localeCompare tools)
  /\ forall p, p ∈ pricingOptions localeCompare tools
               <-> p <> "" /\ exists tool, tool ∈ tools /\ t_pricing tool = Some p.
Proof.
  destruct (uniquePricing_spec tools) as [Hn He].
  assert (Hp : pricingOptions localeCompare tools ≡ₚ uniquePricing tools).
  { unfold pricingOptions. rewrite js_sort_perm, filter_truthy_id; [reflexivity|].
    rewrite He. tauto. }
  split; [rewrite Hp; exact Hn|]. intros p. rewrite Hp. apply He.
Qed.

(** When [localeCompare] orders the names (any two compare one way or the
    other, transitively), both facet lists come out in that order. *)
Theorem facets_ordered (tools : list Tool) :
  (forall a b, localeCompare a b <= 0 \/ localeCompare b a <= 0) ->
  (forall a b c,
      localeCompare a b <= 0 -> localeCompare b c <= 0 -> localeCompare a c <= 0) ->
  StronglySorted (fun a b => localeCompare a b <= 0) (categories localeCompare tools)
  /\ StronglySorted (fun a b => localeCompare a b <= 0)
       (pricingOptions localeCompare tools).
Proof.
  intros Htotal Htrans.
  split; apply js_sort_sorted; try assumption;
    intros a b; unfold by_locale; apply Z.leb_le.
Qed.

(** *** [getFilteredTools] *)

(** The filtered list holds exactly the loaded tools that pass the three
    filters, each as often as it is loaded; with an empty search and [all]
    for category and pricing, that is every loaded tool. *)
Theorem getFilteredTools_selects (tools : list ListedTool) (f : Filters) :
  getFilteredTools localeCompare toLowerCase tools f
  ≡ₚ List.filter (passes toLowerCase f) tools
  /\ (f_search f = "" -> f_category f = "all" -> f_pricing f = "all" ->
      getFilteredTools localeCompare toLowerCase tools f ≡ₚ tools).
Proof.
  unfold getFilteredTools. split; [apply js_sort_perm|].
  intros Hs Hc Hp. rewrite js_sort_perm.
  rewrite (filter_ext _ (fun _ => true)), filter_true; [reflexivity|].
  intros t. unfold passes, matchesSearch, matchesCategory, matchesPricing.
  rewrite Hs, Hc, Hp. reflexivity.
Qed.

(** With the sort [rating-desc] the result is ordered by falling rating, with
    [rating-asc] by rising rating, with [reviews-desc] by falling review
    count. *)
Theorem getFilteredTools_by_number (tools : list ListedTool) (f : Filters) :
  (f_sort f = "rating-desc" ->
   StronglySorted (fun a b => (l_rating b <= l_rating a)%Q)
     (getFilteredTools localeCompare toLowerCase tools f))
  /\ (f_sort f = "rating-asc" ->
      StronglySorted (fun a b => (l_rating a <= l_rating b)%Q)
        (getFilteredTools localeCompare toLowerCase tools f))
  /\ (f_sort f = "reviews-desc" ->
      StronglySorted (fun a b => (l_reviewCount b <= l_reviewCount a)%Q)
        (getFilteredTools localeCompare toLowerCase tools f)).
Proof.
  unfold getFilteredTools.
  split; [|split]; intros ->; apply js_sort_sorted.
  all: try (intros a b; unfold sort_before; simpl; apply Qdiff_le).
  all: try (intros a b;
            destruct (Qlt_le_dec (l_rating a) (l_rating b)) as [H|H];
            [apply Qlt_le_weak in H|]; auto; fail).
  all: try (intros a b;
            destruct (Qlt_le_dec (l_reviewCount a) (l_reviewCount b)) as [H|H];
            [apply Qlt_le_weak in H|]; auto; fail).
  all: intros a b c H1 H2; eapply Qle_trans; eassumption.
Qed.

(** A sort key the [switch] does not know leaves the filtered tools in the
    order they were loaded. *)
Theorem getFilteredTools_unknown_sort (tools : list ListedTool) (f : Filters) :
  f_sort f <> "rating-desc" -> f_sort f <> "rating-asc" ->
  f_sort f <> "reviews-desc" -> f_sort f <> "name-asc" -> f_sort f <> "name-desc" ->
  getFilteredTools localeCompare toLowerCase tools f
  = List.filter (passes toLowerCase f) tools.
Proof.
  intros H1 H2 H3 H4 H5. unfold getFilteredTools.
  rewrite <- (js_sort_keep (List.filter _ tools)) at 2. f_equal.
  unfold sort_before.
  apply String.eqb_neq in H1, H2, H3, H4, H5. rewrite H1, H2, H3, H4, H5.
  reflexivity.
Qed.

(** *** The categories page *)

(** The count of the categories page reads [categories] only: when the loaded
    tools carry their category in the single [category] field, every category
    is listed with 0 tools. *)
Theorem getCategoryCount_ignores_category (tools : list Tool) (c : string) :
  Forall (fun tool => t_categories tool = CatsAbsent) tools ->
  getCategoryCount tools c = 0%nat
  /\ (c <> "" -> (exists tool, tool ∈ tools /\ t_category tool = Some c) ->
      c ∈ categories localeCompare tools).
Proof.
  intros Hall. split.
  - unfold getCategoryCount. induction Hall as [|t ts Ht _ IH]; [reflexivity|].
    simpl. unfold in_categories at 1. rewrite Ht. exact IH.
  - intros Hc (tool & Hin & Ht).
    apply categories_elem. split; [exact Hc|].
    exists tool. split; [exact Hin|]. unfold mentions.
    rewrite bool_decide_eq_true_2 by exact Ht. reflexivity.
Qed.

(** For tools whose [categories] is an array (or absent) and whose single
    [category] is unset, the page's count is the number of loaded records
    that contain the category. *)
Theorem getCategoryCount_arrays (tools : list Tool) (c : string) :
  Forall (fun tool => t_category tool = None
                      /\ forall s, t_categories tool <> CatsString s) tools ->
  getCategoryCount tools c = records_in_category c tools.
Proof.
  intros Hall. unfold getCategoryCount, records_in_category. f_equal.
  apply filter_ext_in. intros t Ht.
  rewrite Forall_forall in Hall. apply list_elem_of_In in Ht.
  destruct (Hall t Ht) as [Hc Hs]. unfold in_categories, mentions. rewrite Hc.
  rewrite bool_decide_eq_false_2 by discriminate.
  destruct (t_categories t) as [|l|s]; try reflexivity.
  exfalso. exact (Hs s eq_refl).
Qed.

End ViewProperties.

(** ** Properties of the category script *)

Section ScriptPropertiesLemmas.
Import Script.

Lemma foldl_set_add_elem (l s : list string) (y : string) :
  y ∈ foldl Views.set_add s l <-> y ∈ s \/ y ∈ l.
Proof.
  revert s. induction l as [|x l IH]; intros s; simpl.
  - split; [auto|]. intros [H|H]; [exact H|inversion H].
  - rewrite IH, set_add_elem, elem_of_cons. tauto.
Qed.

Lemma foldl_set_add_NoDup (l s : list string) :
  NoDup s -> NoDup (foldl Views.set_add s l).
Proof.
  revert s. induction l as [|x l IH]; intros s Hs; simpl; [exact Hs|].
  apply IH, set_add_NoDup, Hs.
Qed.

Lemma uniqueCategories_elem (tools : list ToolDoc) (n : string) :
  n ∈ uniqueCategories tools <-> exists tool, tool ∈ tools /\ tool_category tool = n.
Proof.
  unfold uniqueCategories. rewrite foldl_set_add_elem, list_elem_of_fmap. split.
  - intros [H|(tool & -> & Ht)]; [inversion H|eauto].
  - intros (tool & Ht & <-). right. eauto.
Qed.

Lemma sum_list_fmap_add {A : Type} (f g : A -> nat) (l : list A) :
  sum_list ((fun x => f x + g x)%nat <$> l)
  = (sum_list (f <$> l) + sum_list (g <$> l))%nat.
Proof.
  induction l as [|x l IH]; [reflexivity|].
  rewrite !fmap_cons. cbn [sum_list_with]. rewrite IH. unfold id. lia.
Qed.

Lemma sum_list_indicator (x : string) (names : list string) :
  NoDup names -> x ∈ names ->
  sum_list ((fun n => if String.eqb x n then 1 else 0)%nat <$> names) = 1%nat.
Proof.
  intros Hn Hx. induction Hn as [|n names Hnot Hn IH]; [inversion Hx|].
  simpl. destruct (String.eqb_spec x n) as [->|Hne].
  - f_equal. clear IH Hx. induction names as [|m names IHn]; [reflexivity|].
    simpl. apply not_elem_of_cons in Hnot. destruct Hnot as [Hm Hnot].
    apply NoDup_cons in Hn. destruct Hn as [_ Hn].
    destruct (String.eqb_spec n m) as [->|_]; [congruence|].
    apply IHn; assumption.
  - apply elem_of_cons in Hx. destruct Hx as [->|Hx]; [congruence|].
    apply IH. exact Hx.
Qed.

Lemma in_category_counts (names : list string) (tools : list ToolDoc) :
  NoDup names ->
  (forall tool, tool ∈ tools -> tool_category tool ∈ names) ->
  sum_list ((fun n => length (in_category n tools)) <$> names) = length tools.
Proof.
  intros Hn. induction tools as [|t ts IH]; intros Hcover.
  - clear Hn Hcover. induction names as [|n names IHn]; [reflexivity|].
    rewrite fmap_cons. cbn [sum_list_with]. rewrite IHn. reflexivity.
  - rewrite (list_fmap_ext _
               (fun n => (if String.eqb (tool_category t) n then 1 else 0)
                         + length (in_category n ts))%nat).
    + rewrite sum_list_fmap_add, sum_list_indicator, IH; [reflexivity| |exact Hn|].
      * intros tool Ht. apply Hcover. right. exact Ht.
      * apply Hcover. left.
    + intros _ n _. unfold in_category. simpl.
      destruct (String.eqb (tool_category t) n); reflexivity.
Qed.

Lemma StronglySorted_app_cross {A : Type} (R : A -> A -> Prop) (l1 l2 : list A) :
  StronglySorted R (l1 ++ l2) ->
  forall a b, a ∈ l1 -> b ∈ l2 -> R a b.
Proof.
  induction l1 as [|x l1 IH]; intros Hs a b Ha Hb; [inversion Ha|].
  simpl in Hs. apply StronglySorted_inv in Hs. destruct Hs as [Hs Hx].
  apply elem_of_cons in Ha. destruct Ha as [->|Ha].
  - rewrite Forall_forall in Hx. apply Hx. apply elem_of_app. right. exact Hb.
  - apply IH; assumption.
Qed.

End ScriptPropertiesLemmas.

Section ScriptProperties.
Import Script.

Variable slugify : string -> string.
Variable toLowerCase : string -> string.
Variable sortByRating : list ToolDoc -> list ToolDoc.

Lemma populateCategories_name_list (tools : list ToolDoc) :
  c_name <$> populateCategories slugify toLowerCase sortByRating tools
  = uniqueCategories tools.
Proof.
  unfold populateCategories. rewrite <- list_fmap_compose.
  rewrite <- (list_fmap_id (uniqueCategories tools)) at 2.
  apply list_fmap_ext. reflexivity.
Qed.

(** The script creates one category per distinct [category] value of the
    tools, in the order of first appearance, and no category without a
    tool. *)
Theorem populateCategories_names (tools : list ToolDoc) :
  NoDup (c_name <$> populateCategories slugify toLowerCase sortByRating tools)
  /\ forall n,
      n ∈ c_name <$> populateCategories slugify toLowerCase sortByRating tools
      <-> exists tool, tool ∈ tools /\ tool_category tool = n.
Proof.
  rewrite populateCategories_name_list. split.
  - apply foldl_set_add_NoDup, NoDup_nil_2.
  - apply uniqueCategories_elem.
Qed.

(** Every category the script creates counts at least one tool, and the
    counts of all categories add up to the number of tools: each tool is
    counted in exactly one category. *)
Theorem populateCategories_counts (tools : list ToolDoc) :
  (forall c,
      c ∈ populateCategories slugify toLowerCase sortByRating tools ->
      (1 <= c_toolCount c)%nat)
  /\ sum_list (c_toolCount <$> populateCategories slugify toLowerCase sortByRating tools)
     = length tools.
Proof.
  split.
  - intros c Hc. unfold populateCategories in Hc.
    apply list_elem_of_fmap in Hc. destruct Hc as (n & -> & Hn).
    apply uniqueCategories_elem in Hn. destruct Hn as (tool & Ht & Hcat).
    cbn [make_category c_toolCount].
    assert (Hin : In tool (in_category n tools)).
    { apply filter_In. split; [apply list_elem_of_In; exact Ht|].
      apply String.eqb_eq. exact Hcat. }
    destruct (in_category n tools); [destruct Hin|simpl; lia].
  - unfold populateCategories. rewrite <- list_fmap_compose.
    apply in_category_counts.
    + apply foldl_set_add_NoDup, NoDup_nil_2.
    + intros tool Ht. apply uniqueCategories_elem. eauto.
Qed.

(** When the store's sort returns the tools of a category by falling average
    rating, the featured tools of each created category are the first three
    of them (all of them when there are fewer): they belong to the category,
    and no tool of the category left out is rated above a featured one. *)
Theorem populateCategories_featured (tools : list ToolDoc) (c : CategoryDoc) :
  (forall l, sortByRating l ≡ₚ l) ->
  (forall l, StronglySorted (fun a b => (rating_average b <= rating_average a)%Q)
               (sortByRating l)) ->
  c ∈ populateCategories slugify toLowerCase sortByRating tools ->
  length (c_featuredTools c) = Nat.min 3 (c_toolCount c)
  /\ exists featured rest,
      featured ++ rest ≡ₚ in_category (c_name c) tools
      /\ c_featuredTools c = tool_id <$> featured
      /\ (forall a, a ∈ featured -> a ∈ tools /\ tool_category a = c_name c)
      /\ (forall a b, a ∈ featured -> b ∈ rest ->
                      (rating_average b <= rating_average a)%Q).
Proof.
  intros Hperm Hsorted Hc. unfold populateCategories in Hc.
  apply list_elem_of_fmap in Hc. destruct Hc as (n & -> & _).
  cbn [make_category c_toolCount c_featuredTools c_name].
  set (s := sortByRating (in_category n tools)).
  split.
  - rewrite length_fmap, length_take. unfold s. rewrite Hperm. reflexivity.
  - exists (take 3 s), (drop 3 s). rewrite take_drop.
    split; [apply Hperm|]. split; [reflexivity|]. split.
    + intros a Ha. apply subseteq_take in Ha. unfold s in Ha. rewrite Hperm in Ha.
      apply list_elem_of_In, filter_In in Ha. destruct Ha as [Ha Hcat].
      split; [apply list_elem_of_In; exact Ha|]. apply String.eqb_eq. exact Hcat.
    + apply StronglySorted_app_cross. rewrite take_drop. apply Hsorted.
Qed.

End ScriptProperties.

(** ** The further properties on the sample data *)

Section FurtherExamples.
Import Server Selection.

Lemma sort_none_perm (key : string) (l : list SmartPrompt) : Demo.sort_none key l ≡ₚ l.
Proof. reflexivity. Qed.

Lemma getPrompts_page_sound_witness :
  0 < limit_of ListingDemo.for_bob
  /\ 1 <= page_of ListingDemo.for_bob
  /\ In (populate Demo.users Demo.haiku)
    (prompts (getPrompts_listing Demo.regex_literal Demo.sort_none Demo.users
                Demo.store ListingDemo.for_bob))
  /\ selected Demo.regex_literal ListingDemo.for_bob Demo.haiku = true.
Proof.
  assert (Hin : In (populate Demo.users Demo.haiku)
                  (prompts (getPrompts_listing Demo.regex_literal Demo.sort_none
                              Demo.users Demo.store ListingDemo.for_bob))).
  { vm_compute. tauto. }
  split; [reflexivity|]. split; [discriminate|]. split; [exact Hin|].
  apply (getPrompts_page_sound Demo.regex_literal Demo.sort_none Demo.users
           sort_none_perm Demo.store ListingDemo.for_bob _ eq_refl
           ltac:(discriminate) Hin).
Defined.

Lemma getPrompts_accessibleBy_only_witness :
  truthy (q_search ListingDemo.for_bob) = false
  /\ truthy (q_accessibleBy ListingDemo.for_bob) = true
  /\ accessible "bob" Demo.lint_rules = true.
Proof.
  split; [reflexivity|]. split; [reflexivity|].
  apply (getPrompts_accessibleBy_only Demo.regex_literal Demo.sort_none Demo.users
           sort_none_perm Demo.store ListingDemo.for_bob
           (populate Demo.users Demo.lint_rules)); [reflexivity|reflexivity|].
  vm_compute. tauto.
Defined.

Lemma getPrompts_pages_cover_witness :
  0 < limit_of ListingDemo.two_per_page
  /\ totalPages (getPrompts_listing Demo.regex_literal Demo.sort_none Demo.users
                   Demo.store ListingDemo.two_per_page) = 2
  /\ concat ((fun i =>
                prompts (getPrompts_listing Demo.regex_literal Demo.sort_none
                           Demo.users Demo.store
                           (with_page ListingDemo.two_per_page (Z.of_nat (S i)))))
               <$> seq 0 (Z.to_nat (totalPages
                                      (getPrompts_listing Demo.regex_literal
                                         Demo.sort_none Demo.users Demo.store
                                         ListingDemo.two_per_page))))
     = populate Demo.users
         <$> Demo.sort_none (sort_of ListingDemo.two_per_page)
               (find Demo.regex_literal Demo.store
                  (build_query ListingDemo.two_per_page)).
Proof.
  split; [reflexivity|]. split; [reflexivity|].
  apply (getPrompts_pages_cover Demo.regex_literal Demo.sort_none Demo.users
           sort_none_perm Demo.store ListingDemo.two_per_page). reflexivity.
Defined.

Lemma getPrompts_past_last_page_witness :
  0 < limit_of ListingDemo.page_five
  /\ totalPages (getPrompts_listing Demo.regex_literal Demo.sort_none Demo.users
                   Demo.store ListingDemo.page_five) < page_of ListingDemo.page_five
  /\ prompts (getPrompts_listing Demo.regex_literal Demo.sort_none Demo.users
                Demo.store ListingDemo.page_five) = []
  /\ currentPage (getPrompts_listing Demo.regex_literal Demo.sort_none Demo.users
                    Demo.store ListingDemo.page_five) = 5.
Proof.
  split; [reflexivity|]. split; [reflexivity|].
  apply (getPrompts_past_last_page Demo.regex_literal Demo.sort_none Demo.users
           sort_none_perm Demo.store ListingDemo.page_five); reflexivity.
Defined.

Lemma getPrompts_unfiltered_witness :
  Demo.store !! "p1" = Some Demo.lint_rules
  /\ visibility Demo.lint_rules = "private"
  /\ In Demo.lint_rules
       (find Demo.regex_literal Demo.store (build_query Demo.no_filters))
  /\ totalCount (getPrompts_listing Demo.regex_literal Demo.sort_none Demo.users
                   Demo.store Demo.no_filters) = 3.
Proof.
  split; [reflexivity|]. split; [reflexivity|].
  destruct (getPrompts_unfiltered Demo.regex_literal Demo.sort_none Demo.users
              Demo.store Demo.no_filters eq_refl eq_refl eq_refl eq_refl eq_refl
              eq_refl eq_refl) as (_ & Hall & Hcount).
  split; [apply (Hall "p1"); reflexivity|exact Hcount].
Defined.

Lemma handlers_leave_other_documents_witness :
  "p2" <> "p1"
  /\ (updatePrompt Demo.users HandlerDemo.reassign Demo.store "p1" (Some "alice")
        HandlerDemo.give_to_bob).2 !! "p2" = Some Demo.haiku
  /\ (deletePrompt Demo.store "p1" (Some "alice")).2 !! "p2" = Some Demo.haiku.
Proof.
  split; [discriminate|].
  destruct (handlers_leave_other_documents Demo.users HandlerDemo.reassign
              Demo.to_number addRating_spec Demo.store "p1" "p2" (Some "alice")
              HandlerDemo.give_to_bob (JNum 3)) as (Hu & Hd & _);
    [discriminate|].
  split; [etransitivity; [exact Hu|reflexivity] | etransitivity; [exact Hd|reflexivity]].
Defined.

Lemma updatePrompt_by_owner_witness :
  Demo.store !! "p1" = Some Demo.lint_rules
  /\ HandlerDemo.reassign Demo.lint_rules HandlerDemo.bad_title
     = Throw "Cast to string failed for path title"
  /\ updatePrompt Demo.users HandlerDemo.reassign Demo.store "p1"
       (Some (creator Demo.lint_rules)) HandlerDemo.bad_title
     = ({| status := 400; body := BMessage "Cast to string failed for path title" |},
        Demo.store).
Proof.
  split; [reflexivity|]. split; [reflexivity|].
  apply (updatePrompt_by_owner Demo.users HandlerDemo.reassign Demo.store "p1"
           HandlerDemo.bad_title Demo.lint_rules); reflexivity.
Defined.

Lemma updatePrompt_hands_over_witness :
  Demo.store !! "p1" = Some Demo.lint_rules
  /\ creator Demo.lint_rules = "alice"
  /\ status (deletePrompt
              (updatePrompt Demo.users HandlerDemo.reassign Demo.store "p1"
                 (Some (creator Demo.lint_rules)) HandlerDemo.give_to_bob).2
              "p1" (Some (creator Demo.lint_rules))).1 = 403.
Proof.
  split; [reflexivity|]. split; [reflexivity|].
  refine (proj1 (proj2 (updatePrompt_hands_over Demo.users HandlerDemo.reassign
                          Demo.store "p1" HandlerDemo.give_to_bob
                          HandlerDemo.give_to_bob Demo.lint_rules _
                          eq_refl eq_refl _))).
  discriminate.
Defined.

Lemma deletePrompt_by_owner_witness :
  Demo.store !! "p2" = Some Demo.haiku
  /\ getPromptById Demo.users
       (deletePrompt Demo.store "p2" (Some (creator Demo.haiku))).2 "p2" (Some "bob")
     = {| status := 404; body := BMessage "Prompt not found" |}.
Proof.
  split; [reflexivity|].
  apply (deletePrompt_by_owner Demo.users Demo.store "p2" Demo.haiku (Some "bob")).
  reflexivity.
Defined.

Lemma ratePrompt_needs_no_access_witness :
  Demo.store !! "p1" = Some Demo.lint_rules
  /\ refused Demo.lint_rules (Some "mallory")
  /\ getPromptById Demo.users Demo.store "p1" (Some "mallory")
     = {| status := 403; body := BMessage "Access denied" |}
  /\ status (ratePrompt Demo.to_number addRating_spec Demo.store "p1" (Some "mallory")
               (JNum 1)).1 = 200.
Proof.
  assert (Hr : refused Demo.lint_rules (Some "mallory")).
  { split; [reflexivity|]. split; [discriminate|].
    intros (u & [= <-] & [H|[]]). discriminate H. }
  split; [reflexivity|]. split; [exact Hr|].
  destruct (ratePrompt_needs_no_access Demo.users Demo.to_number addRating_spec
              Demo.store "p1" (Some "mallory") (JNum 1) Demo.lint_rules _ eq_refl Hr
              eq_refl
              eq_refl) as [Hg Hrate].
  split; [exact Hg | exact (f_equal (fun r => status r.1) Hrate)].
Defined.


Lemma createPrompt_then_fetch_witness :
  status (createPrompt Demo.new_prompt Demo.store Demo.forged_body (Some "mallory")).1
  = 201
  /\ status (getPromptById Demo.users
              (createPrompt Demo.new_prompt Demo.store Demo.forged_body
                 (Some "mallory")).2
              "p4" (Some "mallory")) = 200.
Proof.
  destruct (createPrompt_then_fetch Demo.users Demo.new_prompt Demo.store
              Demo.forged_body "mallory" new_prompt_reads_creator) as [Hok _].
  destruct (Hok _ eq_refl) as [Hc Hg].
  split; [exact (f_equal (fun r => status r.1) Hc) | exact (f_equal status Hg)].
Defined.

End FurtherExamples.

Section FurtherClientExamples.
Import Client Views.

Lemma loadTools_keeps_cache_witness :
  toolsCache ClientDemo.on_page_two !! cacheKey initial_filters 1
  = Some {| c_tools := [ClientDemo.voicebox; ClientDemo.captioner]; c_totalPages := 2 |}
  /\ toolsCache (loadTools ClientDemo.api ClientDemo.on_page_two).1
       !! cacheKey initial_filters 1
     = Some {| c_tools := [ClientDemo.voicebox; ClientDemo.captioner];
               c_totalPages := 2 |}.
Proof.
  assert (H : toolsCache ClientDemo.on_page_two !! cacheKey initial_filters 1
              = Some {| c_tools := [ClientDemo.voicebox; ClientDemo.captioner];
                        c_totalPages := 2 |}) by (vm_compute; reflexivity).
  split; [exact H|].
  destruct (loadTools_keeps_cache ClientDemo.api ClientDemo.on_page_two)
    as (_ & _ & _ & _ & Hkeep & _).
  apply Hkeep. exact H.
Defined.

Lemma cacheKey_inj_witness :
  cacheKey initial_filters 2 = cacheKey (filters ClientDemo.on_page_two) 2
  /\ initial_filters = filters ClientDemo.on_page_two.
Proof.
  split; [reflexivity|].
  apply (cacheKey_inj initial_filters (filters ClientDemo.on_page_two) 2 2).
  reflexivity.
Defined.

Lemma compare_units_le (a b : string) :
  ViewsDemo.compare_units a b <= 0 <-> String.leb a b = true.
Proof.
  unfold ViewsDemo.compare_units.
  destruct (String.leb a b); [destruct (String.leb b a)|]; split; intros; lia || congruence.
Qed.

Lemma compare_units_total (a b : string) :
  ViewsDemo.compare_units a b <= 0 \/ ViewsDemo.compare_units b a <= 0.
Proof. rewrite !compare_units_le. apply String.leb_total. Qed.

Lemma compare_units_trans (a b c : string) :
  ViewsDemo.compare_units a b <= 0 -> ViewsDemo.compare_units b c <= 0 ->
  ViewsDemo.compare_units a c <= 0.
Proof.
  rewrite !compare_units_le. intros H1 H2.
  apply Is_true_true. apply Is_true_true in H1, H2.
  exact (transitivity (R := String.le) H1 H2).
Qed.

Lemma facets_ordered_witness :
  StronglySorted (fun a b => ViewsDemo.compare_units a b <= 0)
    (categories ViewsDemo.compare_units [ClientDemo.captioner; ClientDemo.voicebox])
  /\ categories ViewsDemo.compare_units [ClientDemo.captioner; ClientDemo.voicebox]
     = ["Audio"; "Video"].
Proof.
  split; [|reflexivity].
  apply (facets_ordered ViewsDemo.compare_units
           [ClientDemo.captioner; ClientDemo.voicebox]
           compare_units_total compare_units_trans).
Defined.

Lemma getFilteredTools_selects_witness :
  f_search initial_filters = "" /\ f_category initial_filters = "all"
  /\ f_pricing initial_filters = "all"
  /\ getFilteredTools ViewsDemo.compare_units ViewsDemo.lower ViewsDemo.listed
       initial_filters ≡ₚ ViewsDemo.listed.
Proof.
  split; [reflexivity|]. split; [reflexivity|]. split; [reflexivity|].
  apply (getFilteredTools_selects ViewsDemo.compare_units ViewsDemo.lower
           ViewsDemo.listed initial_filters); reflexivity.
Defined.

Lemma getFilteredTools_by_number_witness :
  f_sort initial_filters = "rating-desc"
  /\ StronglySorted (fun a b => (l_rating b <= l_rating a)%Q)
       (getFilteredTools ViewsDemo.compare_units ViewsDemo.lower ViewsDemo.listed
          initial_filters).
Proof.
  split; [reflexivity|].
  apply (getFilteredTools_by_number ViewsDemo.compare_units ViewsDemo.lower
           ViewsDemo.listed initial_filters). reflexivity.
Defined.

Lemma getFilteredTools_unknown_sort_witness :
  f_sort ViewsDemo.cheapest_first = "price-asc"
  /\ getFilteredTools ViewsDemo.compare_units ViewsDemo.lower ViewsDemo.listed
       ViewsDemo.cheapest_first
     = List.filter (passes ViewsDemo.lower ViewsDemo.cheapest_first) ViewsDemo.listed.
Proof.
  split; [reflexivity|].
  apply (getFilteredTools_unknown_sort ViewsDemo.compare_units ViewsDemo.lower
           ViewsDemo.listed ViewsDemo.cheapest_first); discriminate.
Defined.

Lemma getCategoryCount_ignores_category_witness :
  Forall (fun tool => t_categories tool = CatsAbsent) [ClientDemo.captioner]
  /\ getCategoryCount [ClientDemo.captioner] "Video" = 0%nat
  /\ "Video" ∈ categories ViewsDemo.compare_units [ClientDemo.captioner].
Proof.
  assert (Hall : Forall (fun tool => t_categories tool = CatsAbsent)
                   [ClientDemo.captioner]) by (repeat constructor).
  split; [exact Hall|].
  destruct (getCategoryCount_ignores_category ViewsDemo.compare_units
              [ClientDemo.captioner] "Video" Hall) as [H0 Hin].
  split; [exact H0|]. apply Hin; [discriminate|].
  exists ClientDemo.captioner. split; [left|reflexivity].
Defined.

Lemma getCategoryCount_arrays_witness :
  getCategoryCount
    [{| name := "Dubber"; t_description := ""; t_category := None;
        t_categories := CatsArray ["Audio"; "Video"]; t_pricing := None |}] "Audio"
  = records_in_category "Audio"
      [{| name := "Dubber"; t_description := ""; t_category := None;
          t_categories := CatsArray ["Audio"; "Video"]; t_pricing := None |}].
Proof.
  apply getCategoryCount_arrays. repeat constructor. discriminate.
Defined.

End FurtherClientExamples.

Section ScriptExamples.
Import Script.

Lemma by_rating_perm (l : list ToolDoc) : ScriptDemo.by_rating l ≡ₚ l.
Proof. apply js_sort_perm. Qed.

Lemma by_rating_sorted (l : list ToolDoc) :
  StronglySorted (fun a b => (rating_average b <= rating_average a)%Q)
    (ScriptDemo.by_rating l).
Proof.
  apply js_sort_sorted.
  - intros a b. apply Qle_bool_iff.
  - intros a b. destruct (Qlt_le_dec (rating_average a) (rating_average b)) as [H|H];
      [apply Qlt_le_weak in H|]; auto.
  - intros a b c H1 H2. eapply Qle_trans; eassumption.
Qed.

Lemma populateCategories_counts_witness :
  sum_list (c_toolCount <$> populateCategories ScriptDemo.slug ViewsDemo.lower
                              ScriptDemo.by_rating ScriptDemo.catalogue)
  = length ScriptDemo.catalogue.
Proof.
  apply (populateCategories_counts ScriptDemo.slug ViewsDemo.lower
           ScriptDemo.by_rating ScriptDemo.catalogue).
Defined.

Lemma populateCategories_featured_witness :
  make_category ScriptDemo.slug ViewsDemo.lower ScriptDemo.by_rating
    ScriptDemo.catalogue "Audio"
  ∈ populateCategories ScriptDemo.slug ViewsDemo.lower ScriptDemo.by_rating
      ScriptDemo.catalogue
  /\ length (c_featuredTools
              (make_category ScriptDemo.slug ViewsDemo.lower ScriptDemo.by_rating
                 ScriptDemo.catalogue "Audio"))
     = Nat.min 3 (c_toolCount
                    (make_category ScriptDemo.slug ViewsDemo.lower ScriptDemo.by_rating
                       ScriptDemo.catalogue "Audio")).
Proof.
  assert (Hin : make_category ScriptDemo.slug ViewsDemo.lower ScriptDemo.by_rating
                  ScriptDemo.catalogue "Audio"
                ∈ populateCategories ScriptDemo.slug ViewsDemo.lower
                    ScriptDemo.by_rating ScriptDemo.catalogue).
  { apply list_elem_of_fmap. exists "Audio". split; [reflexivity|]. left. }
  split; [exact Hin|].
  apply (populateCategories_featured ScriptDemo.slug ViewsDemo.lower
           ScriptDemo.by_rating ScriptDemo.catalogue _ by_rating_perm
           by_rating_sorted Hin).
Defined.

End ScriptExamples.
